(** * End-to-end encoding utilities: a shallow embedding

    Embedding of [03_synthesizing_eeg_data/end_to_end_encoding_utils.py]:
    [load_images], [load_eeg_data] and [create_dataloader] with its inner
    class [EegDataset].  Python exceptions are values of an error monad,
    tensors are nested lists that carry their trailing dimensions, and the
    library calls the module makes (os.path, numpy, torch) are embedded
    from their documented behaviour in the modules [Os], [Np] and [Torch]. *)

From Stdlib Require Import List ZArith Lia ZifyNat Bool Arith PeanoNat.
From Stdlib Require Import String Ascii DecimalString DecimalNat.
From Stdlib Require Import Permutation Sorted Mergesort Orders.
From Stdlib Require QArith.
Import ListNotations.

Set Implicit Arguments.
Open Scope string_scope.
Open Scope nat_scope.

(** ** Exceptions and results *)

Module Py.

(** An exception is identified by the name of its class. *)
Definition exn := string.

Definition IndexError : exn := "IndexError".
Definition AttributeError : exn := "AttributeError".
Definition ValueError : exn := "ValueError".
Definition RuntimeError : exn := "RuntimeError".

Inductive result (A : Type) : Type :=
| Ok (a : A)
| Raise (e : exn).

Arguments Ok {A} a.
Arguments Raise {A} e.

Definition bind {A B} (m : result A) (k : A -> result B) : result B :=
  match m with
  | Ok a => k a
  | Raise e => Raise e
  end.

Fixpoint mapM {A B} (f : A -> result B) (l : list A) : result (list B) :=
  match l with
  | [] => Ok []
  | a :: l' =>
      bind (f a) (fun b => bind (mapM f l') (fun bs => Ok (b :: bs)))
  end.

(** [seq[i]] on a sequence of length [n]: an index in [-n, n) is accepted,
    a negative one counting from the end; any other is an IndexError. *)
Definition norm_index (i : Z) (n : nat) : result nat :=
  if ((0 <=? i) && (i <? Z.of_nat n))%Z then Ok (Z.to_nat i)
  else if ((- Z.of_nat n <=? i) && (i <? 0))%Z then Ok (Z.to_nat (i + Z.of_nat n))
  else Raise IndexError.

Definition getitem {A} (l : list A) (i : Z) : result A :=
  bind (norm_index i (List.length l)) (fun k =>
    match nth_error l k with
    | Some a => Ok a
    | None => Raise IndexError
    end).

(** [s.endswith(suffix)] *)
Definition endswith (s suffix : string) : bool :=
  (String.length suffix <=? String.length s) &&
  String.eqb
    (substring (String.length s - String.length suffix) (String.length suffix) s)
    suffix.

(** [format(n, '02')] for a non-negative integer. *)
Definition format_02 (n : nat) : string :=
  let s := NilEmpty.string_of_uint (Nat.to_uint n) in
  if String.length s <? 2 then "0" ++ s else s.

End Py.

Import Py.

Declare Scope py_scope.
Delimit Scope py_scope with py.
Notation "x <- m ;; k" := (bind m (fun x => k))
  (at level 61, m at next level, right associativity) : py_scope.
Notation "' pat <- m ;; k" := (bind m (fun x => match x with pat => k end))
  (at level 61, pat pattern, m at next level, right associativity) : py_scope.
Open Scope py_scope.

(** ** os.path.join, os.walk items and the order of list.sort on paths *)

Module Os.

Definition starts_with_sep (s : string) : bool :=
  match s with
  | String "/" _ => true
  | _ => false
  end.

(** posixpath.join on two components. *)
Definition path_join (a b : string) : string :=
  if starts_with_sep b then b
  else if (String.length a =? 0) || endswith a "/" then a ++ b
  else a ++ "/" ++ b.

Definition path_join3 (a b c : string) : string :=
  path_join (path_join a b) c.

(** One item yielded by os.walk: (root, dirs, files). *)
Definition walk_item : Type := string * list string * list string.

End Os.

Import Os.

(** Python orders [str] values lexicographically by code point. *)
Module PathOrder <: TotalLeBool.
Definition t := string.
Definition leb := String.leb.
Definition leb_total : forall a1 a2, leb a1 a2 = true \/ leb a2 a1 = true :=
  String.leb_total.
End PathOrder.

Module PathSort := Sort PathOrder.

(** ** numpy: arange, indexing and deletion along the first axis *)

Module Np.

Definition ceil_div (a b : nat) : nat := (a + b - 1) / b.

(** [np.arange(start, stop, step)] for non-negative arguments and a
    positive step: [ceil((stop - start) / step)] values. *)
Definition arange (start stop step : nat) : list nat :=
  map (fun k => start + k * step) (seq 0 (ceil_div (stop - start) step)).

Section Rows.
Variable R : Type.

(** [a[idx]] with an integer index array, along the first axis. *)
Definition take (a : list R) (idx : list nat) : result (list R) :=
  mapM (fun i => getitem a (Z.of_nat i)) idx.

Fixpoint delete_from (pos : nat) (a : list R) (idx : list nat) : list R :=
  match a with
  | [] => []
  | r :: a' =>
      if existsb (Nat.eqb pos) idx then delete_from (S pos) a' idx
      else r :: delete_from (S pos) a' idx
  end.

(** [np.delete(a, idx, 0)]: the rows whose position is not in [idx]; an
    index past the end is an IndexError. *)
Definition delete (a : list R) (idx : list nat) : result (list R) :=
  if forallb (fun i => i <? List.length a) idx then Ok (delete_from 0 a idx)
  else Raise IndexError.

End Rows.

End Np.

(** ** Tensors: nested lists with their trailing dimensions *)

Section Tensors.
Variable A : Type.

(** [stimuli, repetitions, channels, timepoints] *)
Record tensor4 : Type := Tensor4 {
  rows4 : list (list (list (list A)));
  reps4 : nat;
  chans4 : nat;
  times4 : nat
}.

(** [stimuli, channels, timepoints] *)
Record tensor3 : Type := Tensor3 {
  rows3 : list (list (list A));
  chans3 : nat;
  times3 : nat
}.

Record tensor2 : Type := Tensor2 {
  rows2 : list (list A);
  cols2 : nat
}.

Definition shape4 (y : tensor4) : nat * nat * nat * nat :=
  (List.length (rows4 y), reps4 y, chans4 y, times4 y).

Definition shape3 (y : tensor3) : nat * nat * nat :=
  (List.length (rows3 y), chans3 y, times3 y).

Definition shape2 (y : tensor2) : nat * nat :=
  (List.length (rows2 y), cols2 y).

(** A [c] by [t] matrix. *)
Definition matrix_wf (c t : nat) (m : list (list A)) : Prop :=
  List.length m = c /\ Forall (fun series => List.length series = t) m.

Definition wf4 (y : tensor4) : Prop :=
  Forall (fun trials =>
            List.length trials = reps4 y /\
            Forall (matrix_wf (chans4 y) (times4 y)) trials) (rows4 y).

Definition wf3 (y : tensor3) : Prop :=
  Forall (matrix_wf (chans3 y) (times3 y)) (rows3 y).

Definition wf2 (y : tensor2) : Prop :=
  Forall (fun row => List.length row = cols2 y) (rows2 y).

(** [y[idx]] and [np.delete(y, idx, 0)] on a 3-d array. *)
Definition take3 (y : tensor3) (idx : list nat) : result tensor3 :=
  rows <- Np.take (rows3 y) idx ;;
  Ok (Tensor3 rows (chans3 y) (times3 y)).

Definition delete3 (y : tensor3) (idx : list nat) : result tensor3 :=
  rows <- Np.delete (rows3 y) idx ;;
  Ok (Tensor3 rows (chans3 y) (times3 y)).

(** Row-major reshape of a flat vector to [c, t]: entry [(i, j)] is entry
    [i * t + j] of the vector. *)
Definition reshape_2d (c t : nat) (flat : list A) : list (list A) :=
  map (fun i => firstn t (skipn (i * t) flat)) (seq 0 c).

End Tensors.

Arguments Tensor4 {A} _ _ _ _.
Arguments Tensor3 {A} _ _ _.
Arguments Tensor2 {A} _ _.

Definition map3 {A B} (f : A -> B) (y : tensor3 A) : tensor3 B :=
  Tensor3 (map (map (map f)) (rows3 y)) (chans3 y) (times3 y).

(** ** Command-line arguments *)

Record Namespace : Type := {
  project_dir : string;
  sub : nat;
  modeled_time_points : string;
  batch_size : Z
}.

(** ** load_images *)

Section LoadImages.

(** A decoded picture and a preprocessed image tensor. *)
Variables pil image : Type.

(** [os.walk(top)], as the list of the items it yields. *)
Variable os_walk : string -> list walk_item.

(** [Image.open(path).convert('RGB')]; an unreadable file raises. *)
Variable Image_open_RGB : string -> result pil.

(** The composed transform: resize to 224x224, to tensor, normalise. *)
Variable preprocess : pil -> image.

(** The two nested loops over the walk that fill [image_list]. *)
Definition jpg_files (root : string) (files : list string) : list string :=
  map (path_join root) (filter (fun file => endswith file ".jpg") files).

Definition collect_images (walk : list walk_item) : list string :=
  flat_map (fun '(root, _, files) => jpg_files root files) walk.

Definition load_one (path : string) : result image :=
  img <- Image_open_RGB path ;;
  Ok (preprocess img).

(** The loop over [enumerate(image_list)], started at position [i] with
    the two lists built so far. *)
Fixpoint split_loop (i : nat) (image_list : list string)
    (X_train X_val : list image) : result (list image * list image) :=
  match image_list with
  | [] => Ok (X_train, X_val)
  | path :: rest =>
      img <- load_one path ;;
      if i mod 10 =? 0 then split_loop (S i) rest X_train (X_val ++ [img])%list
      else split_loop (S i) rest (X_train ++ [img])%list X_val
  end.

Definition training_images_dir (args : Namespace) : string :=
  path_join3 (project_dir args) "image_set" "training_images".

Definition test_images_dir (args : Namespace) : string :=
  path_join3 (project_dir args) "image_set" "test_images".

Definition load_images (args : Namespace)
  : result (list image * list image * list image) :=
  let image_list := PathSort.sort (collect_images (os_walk (training_images_dir args))) in
  '(X_train, X_val) <- split_loop 0 image_list [] [] ;;
  let image_list := PathSort.sort (collect_images (os_walk (test_images_dir args))) in
  X_test <- mapM load_one image_list ;;
  Ok (X_train, X_val, X_test).

End LoadImages.

(** ** load_eeg_data *)

Section LoadEeg.

(** The scalars of the archives (float64) and of the tensors (float32). *)
Variables num f32 : Type.

(** Arithmetic of [np.mean]: a sum started from the first entry ([zero]
    over an empty axis), then a division by the number of entries. *)
Variable zero : num.
Variable add : num -> num -> num.
Variable div_count : num -> nat -> num.

(** [np.float32] on one scalar. *)
Variable to_f32 : num -> f32.

Fixpoint zip_with {X Y Z} (f : X -> Y -> Z) (l1 : list X) (l2 : list Y) : list Z :=
  match l1, l2 with
  | x :: l1', y :: l2' => f x y :: zip_with f l1' l2'
  | _, _ => []
  end.

Definition matrix_add (m1 m2 : list (list num)) : list (list num) :=
  zip_with (zip_with add) m1 m2.

(** The sum over the trials of one stimulus: a [c] by [t] matrix. *)
Definition sum_trials (c t : nat) (trials : list (list (list num))) : list (list num) :=
  match trials with
  | [] => repeat (repeat zero t) c
  | m :: ms => fold_left matrix_add ms m
  end.

(** [np.mean(y, 1)] *)
Definition mean_axis1 (y : tensor4 num) : tensor3 num :=
  Tensor3
    (map (fun trials =>
            map (map (fun s => div_count s (reps4 y)))
                (sum_trials (chans4 y) (times4 y) trials))
         (rows4 y))
    (chans4 y) (times4 y).

(** [y] with its axis 1 removed, for an axis of size 1. *)
Definition squeeze_axis1 (y : tensor4 num) : tensor3 num :=
  Tensor3 (flat_map (fun trials => trials) (rows4 y)) (chans4 y) (times4 y).

(** What [np.load(path, allow_pickle=True).item()] holds. *)
Record archive : Type := {
  preprocessed_eeg_data : tensor4 num;
  ch_names : list string;
  times : list num
}.

(** [np.load(path, allow_pickle=True).item()]; a missing file raises. *)
Variable np_load : string -> result archive.

Definition data_dir (args : Namespace) : string :=
  path_join3 "eeg_dataset" "preprocessed_data" ("sub-" ++ format_02 (sub args)).

Definition training_file : string := "preprocessed_eeg_training.npy".
Definition test_file : string := "preprocessed_eeg_test.npy".

(** The block that creates the validation partition from the training
    data and converts both parts to tensors. *)
Definition create_validation_partition (y_train : tensor3 num)
  : result (tensor3 f32 * tensor3 f32) :=
  let idx_val := Np.arange 0 (List.length (rows3 y_train)) 10 in
  y_val <- take3 y_train idx_val ;;
  y_train <- delete3 y_train idx_val ;;
  let y_val := map3 to_f32 y_val in
  let y_train := map3 to_f32 y_train in
  Ok (y_train, y_val).

Definition load_eeg_data (args : Namespace)
  : result (tensor3 f32 * tensor3 f32 * tensor3 f32 * list string * list num) :=
  data <- np_load (path_join3 (project_dir args) (data_dir args) training_file) ;;
  let y_train := preprocessed_eeg_data data in
  let ch_names := ch_names data in
  let times := times data in
  let y_train := mean_axis1 y_train in
  '(y_train, y_val) <- create_validation_partition y_train ;;
  data <- np_load (path_join3 (project_dir args) (data_dir args) test_file) ;;
  let y_test := preprocessed_eeg_data data in
  let y_test := mean_axis1 y_test in
  let y_test := map3 to_f32 y_test in
  Ok (y_train, y_val, y_test, ch_names, times).

End LoadEeg.

(** ** create_dataloader and its dataset class *)

Module Torch.

(** [BatchSampler.__iter__] with [drop_last=False]: indices are appended to
    the current batch, which is yielded when it reaches [batch_size]; a
    non-empty rest is yielded at the end. *)
Fixpoint batch_sampler (batch_size : nat) (batch : list nat) (sampler : list nat)
  : list (list nat) :=
  match sampler with
  | [] => match batch with [] => [] | _ => [batch] end
  | idx :: rest =>
      let batch := (batch ++ [idx])%list in
      if List.length batch =? batch_size then batch :: batch_sampler batch_size [] rest
      else batch_sampler batch_size batch rest
  end.

End Torch.

Section CreateDataloader.

Variables image f32 : Type.

(** [y[:,:,time_point]] *)
Definition select_time (y : tensor3 f32) (time_point : Z) : result (tensor2 f32) :=
  _ <- norm_index time_point (times3 y) ;;
  rows <- mapM (mapM (fun series => getitem series time_point)) (rows3 y) ;;
  Ok (Tensor2 rows (chans3 y)).

(** [torch.reshape(y, (y.shape[0], -1))]; the size [-1] stands for cannot
    be inferred when [y.shape[0]] is 0, which is a RuntimeError. *)
Definition reshape_rows (y : tensor3 f32) : result (tensor2 f32) :=
  if List.length (rows3 y) =? 0 then Raise RuntimeError
  else Ok (Tensor2 (map (@List.concat f32) (rows3 y)) (chans3 y * times3 y)).

(** An instance of [EegDataset]; [ds_y] is [None] while the attribute [y]
    has not been assigned. *)
Record EegDataset : Type := {
  ds_modeled_time_points : string;
  ds_X : list image;
  ds_y : option (tensor2 f32);
  ds_transform : option (image -> image);
  ds_target_transform : option (list f32 -> list f32)
}.

Section Closure.

(** The variables of [create_dataloader] that the class body refers to. *)
Variable time_point : Z.
Variable X_train : list image.

(** [EegDataset.__init__] *)
Definition EegDataset_init (X : list image) (y : tensor3 f32)
    (modeled_time_points : string)
    (transform : option (image -> image))
    (target_transform : option (list f32 -> list f32)) : result EegDataset :=
  self_y <-
    (if (modeled_time_points =? "single")%string then
       t <- select_time y time_point ;; Ok (Some t)
     else if (modeled_time_points =? "all")%string then
       t <- reshape_rows y ;; Ok (Some t)
     else Ok None) ;;
  Ok {| ds_modeled_time_points := modeled_time_points;
        ds_X := X_train;
        ds_y := self_y;
        ds_transform := transform;
        ds_target_transform := target_transform |}.

End Closure.

(** [EegDataset.__len__] *)
Definition EegDataset_len (self : EegDataset) : result nat :=
  match ds_y self with
  | Some y => Ok (List.length (rows2 y))
  | None => Raise AttributeError
  end.

Definition apply_hook {T} (hook : option (T -> T)) (x : T) : T :=
  match hook with
  | Some f => f x
  | None => x
  end.

(** [EegDataset.__getitem__] *)
Definition EegDataset_getitem (self : EegDataset) (idx : Z)
  : result (image * list f32) :=
  image <- getitem (ds_X self) idx ;;
  target <- match ds_y self with
            | Some y => getitem (rows2 y) idx
            | None => Raise AttributeError
            end ;;
  let image := apply_hook (ds_transform self) image in
  let target := apply_hook (ds_target_transform self) target in
  Ok (image, target).

Record DataLoader : Type := {
  dl_dataset : EegDataset;
  dl_batch_size : Z;
  dl_shuffle : bool
}.

(** [DataLoader(dataset, batch_size=..., shuffle=...)]: with [shuffle] the
    random sampler asks the dataset for its length and refuses 0; the batch
    sampler refuses a batch size that is not positive. *)
Definition DataLoader_init (dataset : EegDataset) (batch_size : Z) (shuffle : bool)
  : result DataLoader :=
  _ <- (if shuffle then
          n <- EegDataset_len dataset ;;
          if n =? 0 then Raise ValueError else Ok tt
        else Ok tt) ;;
  if (batch_size <=? 0)%Z then Raise ValueError
  else Ok {| dl_dataset := dataset;
             dl_batch_size := batch_size;
             dl_shuffle := shuffle |}.

Definition create_dataloader (args : Namespace) (time_point : Z)
    (X_train X_val X_test : list image) (y_train y_val y_test : tensor3 f32)
  : result (DataLoader * DataLoader * DataLoader) :=
  train_ds <- EegDataset_init time_point X_train X_train y_train
                (modeled_time_points args) None None ;;
  val_ds <- EegDataset_init time_point X_train X_val y_val
              (modeled_time_points args) None None ;;
  test_ds <- EegDataset_init time_point X_train X_test y_test
               (modeled_time_points args) None None ;;
  train_dl <- DataLoader_init train_ds (batch_size args) true ;;
  val_len <- EegDataset_len val_ds ;;
  val_dl <- DataLoader_init val_ds (Z.of_nat val_len) false ;;
  test_len <- EegDataset_len test_ds ;;
  test_dl <- DataLoader_init test_ds (Z.of_nat test_len) false ;;
  Ok (train_dl, val_dl, test_dl).

(** One pass over a loader.  [randperm] is the order the random sampler
    draws for this pass; the sequential sampler counts up from 0. *)
Definition batch_indices (dl : DataLoader) (randperm : list nat)
  : result (list (list nat)) :=
  n <- EegDataset_len (dl_dataset dl) ;;
  let sampler := if dl_shuffle dl then randperm else seq 0 n in
  Ok (Torch.batch_sampler (Z.to_nat (dl_batch_size dl)) [] sampler).

(** The samples of one batch, collated into a pair of stacks. *)
Definition fetch (dataset : EegDataset) (batch : list nat)
  : result (list image * list (list f32)) :=
  samples <- mapM (fun idx => EegDataset_getitem dataset (Z.of_nat idx)) batch ;;
  Ok (List.split samples).

Definition iterate (dl : DataLoader) (randperm : list nat)
  : result (list (result (list image * list (list f32)))) :=
  batches <- batch_indices dl randperm ;;
  Ok (map (fetch (dl_dataset dl)) batches).

End CreateDataloader.

(** ** Vocabulary of the statements *)

(** The positions the held-out rule sends to validation, and the others. *)
Definition held_out (i : nat) : bool := i mod 10 =? 0.
Definition kept (i : nat) : bool := negb (held_out i).

(** The entries of [l] whose position, counted from [pos], satisfies [p]. *)
Fixpoint select_from {X} (pos : nat) (p : nat -> bool) (l : list X) : list X :=
  match l with
  | [] => []
  | x :: l' =>
      if p pos then x :: select_from (S pos) p l' else select_from (S pos) p l'
  end.

Definition select {X} (p : nat -> bool) (l : list X) : list X := select_from 0 p l.

(** Entry [(c, t)] of a matrix. *)
Definition entry {X} (m : list (list X)) (c t : nat) : option X :=
  match nth_error m c with
  | Some series => nth_error series t
  | None => None
  end.

(** An index that [seq[i]] accepts on a sequence of length [n]. *)
Definition valid_index (i : Z) (n : nat) : Prop :=
  (- Z.of_nat n <= i < Z.of_nat n)%Z.

(** The files [load_eeg_data] reads. *)
Definition training_archive_path (args : Namespace) : string :=
  path_join3 (project_dir args) (data_dir args) training_file.

Definition test_archive_path (args : Namespace) : string :=
  path_join3 (project_dir args) (data_dir args) test_file.

Section Averages.
Variable num : Type.
Variable zero : num.
Variable add : num -> num -> num.
Variable div_count : num -> nat -> num.

(** The values at [(c, t)] across the trials of one stimulus. *)
Definition entries (trials : list (list (list num))) (c t : nat) : list num :=
  flat_map (fun m => match entry m c t with Some x => [x] | None => [] end) trials.

(** A sum taken from left to right, started from the first value. *)
Definition reduce_add (l : list num) : num :=
  match l with
  | [] => zero
  | x :: xs => fold_left add xs x
  end.

(** [y'] has the shape of [y] without its axis 1, and each of its entries
    is the sum of the entries of [y] across that axis, divided by the size
    of the axis. *)
Definition averages_trials (y : tensor4 num) (y' : tensor3 num) : Prop :=
  shape3 y' = (List.length (rows4 y), chans4 y, times4 y) /\
  wf3 y' /\
  forall s trials c t,
    nth_error (rows4 y) s = Some trials -> c < chans4 y -> t < times4 y ->
    exists m,
      nth_error (rows3 y') s = Some m /\
      entry m c t = Some (div_count (reduce_add (entries trials c t)) (reps4 y)).

End Averages.

(** The position that an accepted index denotes. *)
Definition position (i : Z) (n : nat) : nat :=
  if (0 <=? i)%Z then Z.to_nat i else Z.to_nat (i + Z.of_nat n).

(** The order in which [image_list.sort()] leaves the paths. *)
Definition path_le (s1 s2 : string) : Prop := is_true (PathOrder.leb s1 s2).

(** ** Sample inputs *)

Module Sample.

Definition args_single : Namespace :=
  {| project_dir := "/data"; sub := 1; modeled_time_points := "single"; batch_size := 4 |}.

Definition args_all : Namespace :=
  {| project_dir := "/data"; sub := 1; modeled_time_points := "all"; batch_size := 4 |}.


(** Images stand for themselves under the name of their file. *)
Definition open_any (path : string) : result string := Ok path.
Definition keep (img : string) : string := img.

Definition train_walk : list walk_item :=
  [("/data/image_set/training_images", ["00001_aardvark"; "00002_abacus"], []);
   ("/data/image_set/training_images/00002_abacus", [],
    ["abacus_03.jpg"; "abacus_01.jpg"; "abacus_02.jpg"; "notes.txt"]);
   ("/data/image_set/training_images/00001_aardvark", [],
    ["aardvark_02.jpg"; "aardvark_01.jpg"])].


Definition test_walk : list walk_item :=
  [("/data/image_set/test_images", ["00001_aircraft_carrier"], []);
   ("/data/image_set/test_images/00001_aircraft_carrier", [],
    ["aircraft_carrier_06s.jpg"])].

Definition os_walk (top : string) : list walk_item :=
  if (top =? "/data/image_set/training_images")%string then train_walk
  else if (top =? "/data/image_set/test_images")%string then test_walk
  else [].


(** Twelve training paths, already sorted. *)
Definition image_list : list string :=
  ["a/00.jpg"; "a/01.jpg"; "a/02.jpg"; "a/03.jpg"; "a/04.jpg"; "a/05.jpg";
   "a/06.jpg"; "a/07.jpg"; "a/08.jpg"; "a/09.jpg"; "b/00.jpg"; "b/01.jpg"].

Definition X_train : list string := ["train_0"; "train_1"].
Definition X_val : list string := ["val_0"].
Definition X_test : list string := ["test_0"].

(** The response to stimulus [k]: 2 channels by 3 time points. *)
Definition response (k : nat) : list (list Z) :=
  let v := Z.of_nat k in
  [[100 * v; 100 * v + 1; 100 * v + 2]; [100 * v + 10; 100 * v + 11; 100 * v + 12]]%Z.

Definition responses (first n : nat) : tensor3 Z :=
  Tensor3 (map response (seq first n)) 2 3.

(** Rational arithmetic for the mean. *)
Definition Qdiv_count (x : QArith_base.Q) (n : nat) : QArith_base.Q :=
  QArith_base.Qdiv x (QArith_base.inject_Z (Z.of_nat n)).

Definition Qzero : QArith_base.Q := QArith_base.inject_Z 0.

Definition trial (k : Z) : list (list QArith_base.Q) :=
  map (map QArith_base.inject_Z) [[k; k + 1; k + 2]; [k + 10; k + 11; k + 12]]%Z.

(** 12 stimuli with 2 trials each, and 3 stimuli with a single trial. *)
Definition training_archive : archive QArith_base.Q :=
  {| preprocessed_eeg_data :=
       Tensor4 (map (fun k => [trial (Z.of_nat k); trial (Z.of_nat k + 4)]) (seq 0 12))
               2 2 3;
     ch_names := ["Pz"; "Oz"];
     times := map QArith_base.inject_Z [0; 1; 2]%Z |}.

Definition test_archive : archive QArith_base.Q :=
  {| preprocessed_eeg_data :=
       Tensor4 (map (fun k => [trial (Z.of_nat k)]) (seq 0 3)) 1 2 3;
     ch_names := ["Fp1"; "Fp2"];
     times := [] |}.

Definition np_load (path : string) : result (archive QArith_base.Q) :=
  if (path =? "/data/eeg_dataset/preprocessed_data/sub-01/preprocessed_eeg_training.npy")%string
  then Ok training_archive
  else if (path =? "/data/eeg_dataset/preprocessed_data/sub-01/preprocessed_eeg_test.npy")%string
  then Ok test_archive
  else Raise "FileNotFoundError".

(** A decoder that refuses every file but the ".jpg" ones, and one that
    finds a damaged training file. *)
Definition open_jpg_only (path : string) : result string :=
  if endswith path ".jpg" then Ok path else Raise "UnidentifiedImageError".

Definition open_damaged (path : string) : result string :=
  if (path =? "/data/image_set/training_images/00002_abacus/abacus_02.jpg")%string
  then Raise "UnidentifiedImageError" else Ok path.



(** Hooks for the image and for the target. *)
Definition flip (img : string) : string := img ++ "_flipped".
Definition negate (target : list Z) : list Z := map Z.opp target.

End Sample.

(** * Properties *)

Ltac Zify.zify_post_hook ::= Z.div_mod_to_equations.

(** ** The held-out positions *)
Lemma held_out_iff i : held_out i = true <-> i mod 10 = 0.
Proof. unfold held_out. apply Nat.eqb_eq. Qed.

Lemma ceil_div_10_succ n :
  Np.ceil_div (S n) 10 = Np.ceil_div n 10 + (if held_out n then 1 else 0).
Proof.
  unfold Np.ceil_div, held_out.
  destruct (n mod 10 =? 0) eqn:E.
  - apply Nat.eqb_eq in E. lia.
  - apply Nat.eqb_neq in E. lia.
Qed.

Lemma ceil_div_10_held_out n :
  held_out n = true -> Np.ceil_div n 10 * 10 = n.
Proof. rewrite held_out_iff. unfold Np.ceil_div. lia. Qed.

Lemma arange_succ n :
  Np.arange 0 (S n) 10 = (Np.arange 0 n 10 ++ (if held_out n then [n] else []))%list.
Proof.
  unfold Np.arange. rewrite !Nat.sub_0_r, ceil_div_10_succ.
  destruct (held_out n) eqn:E.
  - rewrite Nat.add_1_r, seq_S, map_app. cbn [map Nat.add].
    now rewrite ceil_div_10_held_out by assumption.
  - now rewrite Nat.add_0_r, app_nil_r.
Qed.

Lemma arange_filter n : Np.arange 0 n 10 = filter held_out (seq 0 n).
Proof.
  induction n as [|n IH].
  - reflexivity.
  - rewrite arange_succ, seq_S, filter_app, IH. simpl.
    now destruct (held_out n).
Qed.

Lemma arange_In n i : In i (Np.arange 0 n 10) <-> i < n /\ i mod 10 = 0.
Proof.
  rewrite arange_filter, filter_In, in_seq, held_out_iff. lia.
Qed.

Lemma arange_length n : List.length (Np.arange 0 n 10) = Np.ceil_div n 10.
Proof. unfold Np.arange. now rewrite length_map, length_seq, Nat.sub_0_r. Qed.

(** *** The result monad *)

Lemma mapM_length {A B} (f : A -> result B) l bs :
  mapM f l = Ok bs -> List.length bs = List.length l.
Proof.
  revert bs. induction l as [|a l IH]; simpl; intros bs H.
  - now inversion H.
  - destruct (f a); [|discriminate]. simpl in H.
    destruct (mapM f l); [|discriminate]. inversion H. simpl. f_equal. now apply IH.
Qed.

Lemma norm_index_nonneg i n :
  i < n -> norm_index (Z.of_nat i) n = Ok i.
Proof.
  intros H. unfold norm_index.
  replace ((0 <=? Z.of_nat i)%Z && (Z.of_nat i <? Z.of_nat n)%Z) with true.
  - now rewrite Nat2Z.id.
  - symmetry. apply andb_true_iff. split; [apply Z.leb_le|apply Z.ltb_lt]; lia.
Qed.

Lemma getitem_nth_error {A} (l : list A) i a :
  nth_error l i = Some a -> getitem l (Z.of_nat i) = Ok a.
Proof.
  intros H. unfold getitem.
  rewrite norm_index_nonneg by (apply nth_error_Some; congruence).
  simpl. now rewrite H.
Qed.

(** *** Positions kept by a predicate *)

Lemma select_from_ext {X} p q (l : list X) pos :
  (forall i, pos <= i < pos + List.length l -> p i = q i) ->
  select_from pos p l = select_from pos q l.
Proof.
  revert pos. induction l as [|x l IH]; intros pos H; simpl; [reflexivity|].
  rewrite (H pos) by (simpl; lia).
  rewrite (IH (S pos)) by (intros; apply H; simpl; lia).
  reflexivity.
Qed.

Lemma select_from_seq p pos n :
  select_from pos p (seq pos n) = filter p (seq pos n).
Proof.
  revert pos. induction n as [|n IH]; intros pos; simpl; [reflexivity|].
  now rewrite IH.
Qed.

Lemma select_from_length_split {X} (l : list X) pos :
  List.length (select_from pos held_out l) + List.length (select_from pos kept l)
  = List.length l.
Proof.
  revert pos. induction l as [|x l IH]; intros pos; simpl; [reflexivity|].
  unfold kept. specialize (IH (S pos)). unfold kept in IH.
  destruct (held_out pos); simpl; lia.
Qed.

Lemma select_from_length {X Y} p (l : list X) (l' : list Y) pos :
  List.length l = List.length l' ->
  List.length (select_from pos p l) = List.length (select_from pos p l').
Proof.
  revert pos l'. induction l as [|x l IH]; intros pos [|y l'] H; simpl in *;
    try discriminate; [reflexivity|].
  injection H as H. destruct (p pos); simpl; erewrite IH; eauto.
Qed.

Lemma select_held_out_length {X} (l : list X) :
  List.length (select held_out l) = Np.ceil_div (List.length l) 10.
Proof.
  unfold select.
  rewrite (select_from_length held_out l (seq 0 (List.length l)))
    by now rewrite length_seq.
  now rewrite select_from_seq, <- arange_filter, arange_length.
Qed.

Lemma select_kept_length {X} (l : list X) :
  List.length (select kept l) = List.length l - Np.ceil_div (List.length l) 10.
Proof.
  pose proof (select_from_length_split l 0) as H.
  pose proof (select_held_out_length l) as H'.
  unfold select in *. lia.
Qed.

(** *** Indexing and deletion at the held-out positions *)

Lemma take_filter_seq {R} p (pre a : list R) :
  mapM (fun i => getitem (pre ++ a) (Z.of_nat i))
       (filter p (seq (List.length pre) (List.length a)))
  = Ok (select_from (List.length pre) p a).
Proof.
  revert pre. induction a as [|r a IH]; intros pre; simpl; [reflexivity|].
  assert (Hnext : mapM (fun i => getitem (pre ++ r :: a) (Z.of_nat i))
                    (filter p (seq (S (List.length pre)) (List.length a)))
                  = Ok (select_from (S (List.length pre)) p a)).
  { specialize (IH (pre ++ [r])%list).
    rewrite <- app_assoc, length_app, Nat.add_1_r in IH. exact IH. }
  destruct (p (List.length pre)); simpl.
  - rewrite (@getitem_nth_error _ (pre ++ r :: a) (List.length pre) r).
    + simpl. now rewrite Hnext.
    + rewrite nth_error_app2, Nat.sub_diag by lia. reflexivity.
  - exact Hnext.
Qed.

Lemma take_held_out {R} (a : list R) :
  Np.take a (Np.arange 0 (List.length a) 10) = Ok (select held_out a).
Proof.
  unfold Np.take. rewrite arange_filter.
  exact (take_filter_seq held_out [] a).
Qed.

Lemma delete_from_select {R} (a : list R) idx pos :
  Np.delete_from pos a idx =
  select_from pos (fun i => negb (existsb (Nat.eqb i) idx)) a.
Proof.
  revert pos. induction a as [|r a IH]; intros pos; simpl; [reflexivity|].
  rewrite IH. now destruct (existsb (Nat.eqb pos) idx).
Qed.

Lemma existsb_arange n i :
  i < n -> existsb (Nat.eqb i) (Np.arange 0 n 10) = held_out i.
Proof.
  intros Hi. apply eq_true_iff_eq. rewrite existsb_exists, held_out_iff. split.
  - intros [j [Hj E]]. apply Nat.eqb_eq in E. subst j.
    now apply arange_In in Hj.
  - intros H. exists i. split; [apply arange_In; auto|apply Nat.eqb_refl].
Qed.

Lemma delete_held_out {R} (a : list R) :
  Np.delete a (Np.arange 0 (List.length a) 10) = Ok (select kept a).
Proof.
  unfold Np.delete.
  replace (forallb (fun i => i <? List.length a) (Np.arange 0 (List.length a) 10))
    with true.
  - f_equal. rewrite delete_from_select. apply select_from_ext.
    intros i Hi. unfold kept. now rewrite existsb_arange by lia.
  - symmetry. apply forallb_forall. intros i Hi.
    apply arange_In in Hi. apply Nat.ltb_lt. lia.
Qed.

Section SplitLoop.
Variables pil image : Type.
Variable Image_open_RGB : string -> result pil.
Variable preprocess : pil -> image.

Lemma split_loop_ok image_list imgs :
  mapM (load_one Image_open_RGB preprocess) image_list = Ok imgs ->
  forall pos X_train X_val,
    split_loop Image_open_RGB preprocess pos image_list X_train X_val
    = Ok ((X_train ++ select_from pos kept imgs)%list,
          (X_val ++ select_from pos held_out imgs)%list).
Proof.
  revert imgs. induction image_list as [|path rest IH]; intros imgs H pos Xt Xv.
  - inversion H. cbn [split_loop select_from]. now rewrite !app_nil_r.
  - cbn [mapM split_loop] in *.
    destruct (load_one Image_open_RGB preprocess path) as [img|e];
      cbn [bind] in *; [|discriminate].
    destruct (mapM (load_one Image_open_RGB preprocess) rest) as [imgs'|e];
      cbn [bind] in *; [|discriminate].
    inversion H; subst imgs. cbn [select_from]. unfold kept at 1.
    change (pos mod 10 =? 0) with (held_out pos).
    destruct (held_out pos); cbn [negb]; rewrite (IH imgs' eq_refl), <- app_assoc;
      reflexivity.
Qed.

Lemma split_loop_raise image_list e :
  mapM (load_one Image_open_RGB preprocess) image_list = Raise e ->
  forall pos X_train X_val,
    split_loop Image_open_RGB preprocess pos image_list X_train X_val = Raise e.
Proof.
  induction image_list as [|path rest IH]; intros H pos Xt Xv; [discriminate|].
  cbn [mapM split_loop] in *.
  destruct (load_one Image_open_RGB preprocess path) as [img|e'];
    cbn [bind] in *; [|congruence].
  destruct (mapM (load_one Image_open_RGB preprocess) rest) as [imgs'|e'];
    cbn [bind] in *; [discriminate|].
  inversion H; subst e'.
  destruct (pos mod 10 =? 0); now apply IH.
Qed.

End SplitLoop.

(** *** Matrices *)

Lemma nth_error_zip_with {X Y Z} (f : X -> Y -> Z) l1 l2 i :
  nth_error (zip_with f l1 l2) i =
  match nth_error l1 i, nth_error l2 i with
  | Some a, Some b => Some (f a b)
  | _, _ => None
  end.
Proof.
  revert l2 i. induction l1 as [|x l1 IH]; intros [|y l2] [|i]; simpl; auto.
  - now destruct (nth_error l1 i).
Qed.

Lemma zip_with_length {X Y Z} (f : X -> Y -> Z) l1 l2 :
  List.length l1 = List.length l2 ->
  List.length (zip_with f l1 l2) = List.length l1.
Proof.
  revert l2. induction l1 as [|x l1 IH]; intros [|y l2] H; simpl in *;
    try discriminate; auto.
Qed.

Section Matrices.
Variable num : Type.
Variable zero : num.
Variable add : num -> num -> num.
Variable div_count : num -> nat -> num.

Lemma matrix_wf_entry (m : list (list num)) c t i j :
  matrix_wf c t m -> i < c -> j < t -> exists x, entry m i j = Some x.
Proof.
  intros [Hlen Hrows] Hi Hj. unfold entry.
  destruct (nth_error m i) as [series|] eqn:E.
  - assert (Hs : List.length series = t).
    { rewrite Forall_forall in Hrows. apply Hrows. eapply nth_error_In; eauto. }
    destruct (nth_error series j) eqn:E'; eauto.
    apply nth_error_None in E'. lia.
  - apply nth_error_None in E. lia.
Qed.

Lemma matrix_add_wf c t m1 m2 :
  matrix_wf c t m1 -> matrix_wf c t m2 -> matrix_wf c t (matrix_add add m1 m2).
Proof.
  intros [L1 R1] [L2 R2]. unfold matrix_add. split.
  - rewrite zip_with_length; congruence.
  - apply Forall_forall. intros series Hin.
    apply In_nth_error in Hin as [i Hi].
    rewrite nth_error_zip_with in Hi.
    destruct (nth_error m1 i) as [s1|] eqn:E1; [|discriminate].
    destruct (nth_error m2 i) as [s2|] eqn:E2; [|discriminate].
    inversion Hi; subst series.
    rewrite Forall_forall in R1, R2.
    apply nth_error_In in E1, E2. apply R1 in E1. apply R2 in E2.
    rewrite zip_with_length; congruence.
Qed.

Lemma matrix_add_entry m1 m2 i j x1 x2 :
  entry m1 i j = Some x1 -> entry m2 i j = Some x2 ->
  entry (matrix_add add m1 m2) i j = Some (add x1 x2).
Proof.
  unfold entry, matrix_add. intros H1 H2.
  rewrite nth_error_zip_with.
  destruct (nth_error m1 i) as [s1|]; [|discriminate].
  destruct (nth_error m2 i) as [s2|]; [|discriminate].
  now rewrite nth_error_zip_with, H1, H2.
Qed.

Lemma fold_matrix_add_wf c t ms m :
  matrix_wf c t m -> Forall (matrix_wf c t) ms ->
  matrix_wf c t (fold_left (matrix_add add) ms m).
Proof.
  revert m. induction ms as [|m' ms IH]; intros m Hm Hms; simpl; [exact Hm|].
  inversion Hms; subst. apply IH; auto using matrix_add_wf.
Qed.

Lemma fold_matrix_add_entry c t ms m i j x :
  Forall (matrix_wf c t) ms -> i < c -> j < t ->
  entry m i j = Some x ->
  entry (fold_left (matrix_add add) ms m) i j
  = Some (fold_left add (entries ms i j) x).
Proof.
  intros Hms Hi Hj. revert m x.
  induction Hms as [|m' ms Hm' Hms IH]; intros m x Hx; simpl; [exact Hx|].
  destruct (matrix_wf_entry Hm' Hi Hj) as [x' Hx'].
  rewrite Hx'. simpl. apply IH. now apply matrix_add_entry.
Qed.

Lemma zeros_wf c t : matrix_wf c t (repeat (repeat zero t) c).
Proof.
  split; [apply repeat_length|].
  apply Forall_forall. intros s Hs. apply repeat_spec in Hs. subst s.
  apply repeat_length.
Qed.

Lemma zeros_entry c t i j :
  i < c -> j < t -> entry (repeat (repeat zero t) c) i j = Some zero.
Proof.
  intros Hi Hj. unfold entry.
  rewrite nth_error_repeat by assumption. now apply nth_error_repeat.
Qed.

Lemma sum_trials_wf c t trials :
  Forall (matrix_wf c t) trials -> matrix_wf c t (sum_trials zero add c t trials).
Proof.
  intros H. destruct H as [|m ms Hm Hms]; simpl.
  - apply zeros_wf.
  - now apply fold_matrix_add_wf.
Qed.

Lemma sum_trials_entry c t trials i j :
  Forall (matrix_wf c t) trials -> i < c -> j < t ->
  entry (sum_trials zero add c t trials) i j
  = Some (reduce_add zero add (entries trials i j)).
Proof.
  intros H Hi Hj. destruct H as [|m ms Hm Hms]; simpl.
  - now apply zeros_entry.
  - destruct (matrix_wf_entry Hm Hi Hj) as [x Hx]. rewrite Hx. simpl.
    eapply fold_matrix_add_entry; eauto.
Qed.

Lemma map_map_wf {Y} (g : num -> Y) c t m :
  matrix_wf c t m -> matrix_wf c t (map (map g) m).
Proof.
  intros [L R]. split; [now rewrite length_map|].
  apply Forall_map. eapply Forall_impl; [|exact R].
  intros s Hs. now rewrite length_map.
Qed.

Lemma map_map_entry {Y} (g : num -> Y) (m : list (list num)) i j :
  entry (map (map g) m) i j = option_map g (entry m i j).
Proof.
  unfold entry. rewrite nth_error_map.
  destruct (nth_error m i) as [s|]; simpl; [|reflexivity].
  apply nth_error_map.
Qed.

(** *** np.mean over the trials *)

Lemma mean_axis1_averages (y : tensor4 num) :
  wf4 y -> averages_trials zero add div_count y (mean_axis1 zero add div_count y).
Proof.
  intros Hwf. unfold averages_trials, mean_axis1, shape3, wf3. simpl.
  split; [now rewrite length_map|]. split.
  - apply Forall_map. eapply Forall_impl; [|exact Hwf].
    intros trials [_ Ht]. simpl. apply map_map_wf. now apply sum_trials_wf.
  - intros s trials c t Hs Hc Ht.
    rewrite nth_error_map, Hs. simpl. eexists. split; [reflexivity|].
    rewrite map_map_entry, sum_trials_entry; auto.
    unfold wf4 in Hwf. rewrite Forall_forall in Hwf.
    apply nth_error_In in Hs. now apply Hwf in Hs.
Qed.

Hypothesis div_count_1 : forall x, div_count x 1 = x.

Lemma mean_axis1_single_trial (y : tensor4 num) :
  wf4 y -> reps4 y = 1 ->
  mean_axis1 zero add div_count y = squeeze_axis1 y.
Proof.
  intros Hwf HR. unfold mean_axis1, squeeze_axis1. f_equal.
  unfold wf4 in Hwf. rewrite HR in *.
  induction Hwf as [|trials rows [Hlen _] _ IH]; simpl; [reflexivity|].
  rewrite IH.
  destruct trials as [|m [|m' ms]]; try discriminate. simpl. f_equal.
  rewrite <- (map_id m) at 2. apply map_ext. intros series.
  rewrite <- (map_id series) at 2. now apply map_ext.
Qed.

End Matrices.


Section SignalLoader.
Variables num f32 : Type.
Variable zero : num.
Variable add : num -> num -> num.
Variable div_count : num -> nat -> num.
Variable to_f32 : num -> f32.
Variable np_load : string -> result (archive num).

Lemma create_validation_partition_ok (y : tensor3 num) :
  create_validation_partition to_f32 y
  = Ok (map3 to_f32 (Tensor3 (select kept (rows3 y)) (chans3 y) (times3 y)),
        map3 to_f32 (Tensor3 (select held_out (rows3 y)) (chans3 y) (times3 y))).
Proof.
  unfold create_validation_partition, take3, delete3.
  rewrite take_held_out. cbn [bind rows3 chans3 times3].
  rewrite delete_held_out. reflexivity.
Qed.

Lemma load_eeg_data_ok args tr te :
  np_load (training_archive_path args) = Ok tr ->
  np_load (test_archive_path args) = Ok te ->
  let avg := mean_axis1 zero add div_count in
  let y := avg (preprocessed_eeg_data tr) in
  load_eeg_data zero add div_count to_f32 np_load args
  = Ok (map3 to_f32 (Tensor3 (select kept (rows3 y)) (chans3 y) (times3 y)),
        map3 to_f32 (Tensor3 (select held_out (rows3 y)) (chans3 y) (times3 y)),
        map3 to_f32 (avg (preprocessed_eeg_data te)),
        ch_names tr, times tr).
Proof.
  intros Htr Hte avg y. unfold load_eeg_data.
  fold (training_archive_path args). fold (test_archive_path args).
  rewrite Htr. cbn [bind]. fold avg. fold y.
  rewrite create_validation_partition_ok. cbn [bind].
  rewrite Hte. reflexivity.
Qed.

Lemma load_eeg_data_reads_training args out :
  load_eeg_data zero add div_count to_f32 np_load args = Ok out ->
  exists tr te,
    np_load (training_archive_path args) = Ok tr /\
    np_load (test_archive_path args) = Ok te.
Proof.
  unfold load_eeg_data.
  fold (training_archive_path args). fold (test_archive_path args).
  destruct (np_load (training_archive_path args)) as [tr|e]; [|discriminate].
  cbn [bind]. rewrite create_validation_partition_ok. cbn [bind].
  destruct (np_load (test_archive_path args)) as [te|e]; [|discriminate].
  intros _. eauto.
Qed.

End SignalLoader.

(** *** The order of paths *)

Lemma ascii_compare_refl c : Ascii.compare c c = Eq.
Proof. unfold Ascii.compare. apply N.compare_refl. Qed.

Lemma ascii_compare_lt_trans a b c :
  Ascii.compare a b = Lt -> Ascii.compare b c = Lt -> Ascii.compare a c = Lt.
Proof.
  unfold Ascii.compare. rewrite !N.compare_lt_iff. apply N.lt_trans.
Qed.

Lemma string_compare_trans s1 :
  forall s2 s3,
    String.compare s1 s2 <> Gt -> String.compare s2 s3 <> Gt ->
    String.compare s1 s3 <> Gt.
Proof.
  induction s1 as [|c1 s1 IH]; intros [|c2 s2] [|c3 s3]; simpl; try congruence.
  destruct (Ascii.compare c1 c2) eqn:E12; try congruence.
  - apply Ascii.compare_eq_iff in E12. subst c2.
    destruct (Ascii.compare c1 c3); try congruence. apply IH.
  - intros _. destruct (Ascii.compare c2 c3) eqn:E23; try congruence.
    + apply Ascii.compare_eq_iff in E23. subst c3. now rewrite E12.
    + now rewrite (ascii_compare_lt_trans _ _ _ E12 E23).
Qed.

Lemma path_le_trans : Relation_Definitions.transitive string path_le.
Proof.
  intros s1 s2 s3. unfold path_le, PathOrder.leb, String.leb, is_true.
  intros H12 H23.
  pose proof (string_compare_trans s1 s2 s3) as T.
  destruct (String.compare s1 s2); try discriminate;
    destruct (String.compare s2 s3); try discriminate;
    destruct (String.compare s1 s3); try reflexivity;
    exfalso; apply T; congruence.
Qed.



Lemma sort_strongly_sorted l : StronglySorted path_le (PathSort.sort l).
Proof.
  apply PathSort.StronglySorted_sort. exact path_le_trans.
Qed.


(** *** load_images *)

Section ImageLoader.
Variables pil image : Type.
Variable Image_open_RGB : string -> result pil.
Variable preprocess : pil -> image.


End ImageLoader.

(** *** Indexing *)

Lemma norm_index_valid i n :
  valid_index i n -> norm_index i n = Ok (position i n) /\ position i n < n.
Proof.
  unfold valid_index, norm_index, position. intros H.
  destruct (0 <=? i)%Z eqn:E0.
  - apply Z.leb_le in E0.
    replace (i <? Z.of_nat n)%Z with true by (symmetry; apply Z.ltb_lt; lia).
    simpl. split; [reflexivity|lia].
  - apply Z.leb_gt in E0. simpl.
    replace (- Z.of_nat n <=? i)%Z with true by (symmetry; apply Z.leb_le; lia).
    replace (i <? 0)%Z with true by (symmetry; apply Z.ltb_lt; lia).
    simpl. split; [reflexivity|lia].
Qed.

Lemma norm_index_invalid i n :
  ~ valid_index i n -> norm_index i n = Raise IndexError.
Proof.
  unfold valid_index, norm_index. intros H.
  destruct (0 <=? i)%Z eqn:E0; simpl.
  - apply Z.leb_le in E0.
    replace (i <? Z.of_nat n)%Z with false by (symmetry; apply Z.ltb_ge; lia).
    replace (i <? 0)%Z with false by (symmetry; apply Z.ltb_ge; lia).
    now rewrite andb_false_r.
  - apply Z.leb_gt in E0.
    replace (- Z.of_nat n <=? i)%Z with false by (symmetry; apply Z.leb_gt; lia).
    reflexivity.
Qed.

Lemma norm_index_raises i n e : norm_index i n = Raise e -> e = IndexError.
Proof.
  unfold norm_index.
  destruct ((0 <=? i)%Z && (i <? Z.of_nat n)%Z); [discriminate|].
  destruct ((- Z.of_nat n <=? i)%Z && (i <? 0)%Z); [discriminate|].
  congruence.
Qed.

Lemma getitem_valid {A} (l : list A) i :
  valid_index i (List.length l) ->
  exists a, getitem l i = Ok a /\ nth_error l (position i (List.length l)) = Some a.
Proof.
  intros H. apply norm_index_valid in H as [E Hlt]. unfold getitem. rewrite E.
  cbn [bind]. destruct (nth_error l (position i (List.length l))) as [a|] eqn:En.
  - eauto.
  - apply nth_error_None in En. lia.
Qed.

Lemma getitem_invalid {A} (l : list A) i :
  ~ valid_index i (List.length l) -> getitem l i = Raise IndexError.
Proof.
  intros H. unfold getitem. now rewrite norm_index_invalid.
Qed.

Lemma getitem_raises {A} (l : list A) i e : getitem l i = Raise e -> e = IndexError.
Proof.
  unfold getitem. destruct (norm_index i (List.length l)) as [k|e'] eqn:E; cbn [bind].
  - destruct (nth_error l k); [discriminate|congruence].
  - intros H. inversion H; subst. eapply norm_index_raises; eauto.
Qed.

Lemma mapM_raises {A B} (f : A -> result B) l e0 e :
  (forall a e', f a = Raise e' -> e' = e0) -> mapM f l = Raise e -> e = e0.
Proof.
  intros Hf. induction l as [|a l IH]; cbn [mapM]; [discriminate|].
  destruct (f a) as [b|e'] eqn:E; cbn [bind].
  - destruct (mapM f l); cbn [bind]; [discriminate|].
    intros H. inversion H; subst. now apply IH.
  - intros H. inversion H; subst. eapply Hf; eauto.
Qed.

Lemma mapM_Forall2 {A B} (f : A -> result B) (P : A -> B -> Prop) l :
  Forall (fun a => exists b, f a = Ok b /\ P a b) l ->
  exists bs, mapM f l = Ok bs /\ Forall2 P l bs.
Proof.
  induction 1 as [|a l [b [Eb Pb]] _ [bs [Ebs Pbs]]]; cbn [mapM].
  - eauto.
  - rewrite Eb. cbn [bind]. rewrite Ebs. cbn [bind]. eauto.
Qed.

(** *** The two target layouts *)

Section Targets.
Variable f32 : Type.

Lemma pick_time_ok c t (m : list (list f32)) time_point :
  matrix_wf c t m -> valid_index time_point t ->
  exists row,
    mapM (fun series => getitem series time_point) m = Ok row /\
    List.length row = c /\
    forall i, nth_error row i = entry m i (position time_point t).
Proof.
  intros [Hlen Hrows] Hv. revert c Hlen.
  induction Hrows as [|series m Hs _ IH]; intros c Hlen; cbn [mapM].
  - exists []. repeat split; auto. intros i. unfold entry. now destruct i.
  - destruct (IH _ eq_refl) as [row [E [L N]]].
    rewrite <- Hs in Hv. destruct (getitem_valid series Hv) as [x [Ex Nx]].
    rewrite Ex. cbn [bind]. rewrite E. cbn [bind].
    exists (x :: row). repeat split.
    + simpl in *. lia.
    + intros [|i]; unfold entry; simpl.
      * now rewrite <- Hs.
      * apply N.
Qed.

Lemma select_time_ok (y : tensor3 f32) time_point :
  wf3 y -> valid_index time_point (times3 y) ->
  exists rows,
    select_time y time_point = Ok (Tensor2 rows (chans3 y)) /\
    Forall2 (fun m row =>
               List.length row = chans3 y /\
               forall c, nth_error row c = entry m c (position time_point (times3 y)))
            (rows3 y) rows.
Proof.
  intros Hwf Hv. unfold select_time.
  destruct (norm_index_valid Hv) as [E _]. rewrite E. cbn [bind].
  destruct (mapM_Forall2
              (mapM (fun series : list f32 => getitem series time_point))
              (fun m row =>
                 List.length row = chans3 y /\
                 forall c, nth_error row c = entry m c (position time_point (times3 y)))
              (l := rows3 y)) as [rows [Er F]].
  - eapply Forall_impl; [|exact Hwf]. intros m Hm. cbn beta.
    destruct (pick_time_ok Hm Hv) as [row [E1 [E2 E3]]]. eauto.
  - rewrite Er. cbn [bind]. eauto.
Qed.

Lemma select_time_invalid (y : tensor3 f32) time_point :
  ~ valid_index time_point (times3 y) -> select_time y time_point = Raise IndexError.
Proof.
  intros H. unfold select_time. now rewrite norm_index_invalid.
Qed.


Lemma select_time_rows (y : tensor3 f32) time_point t :
  select_time y time_point = Ok t ->
  List.length (rows2 t) = List.length (rows3 y).
Proof.
  unfold select_time.
  destruct (norm_index time_point (times3 y)); cbn [bind]; [|discriminate].
  destruct (mapM (mapM (fun series => getitem series time_point)) (rows3 y))
    as [rows|] eqn:E; cbn [bind]; [|discriminate].
  intros H. inversion H. simpl. eapply mapM_length; eauto.
Qed.

Lemma reshape_rows_ok (y : tensor3 f32) :
  rows3 y <> [] ->
  reshape_rows y
  = Ok (Tensor2 (map (@List.concat f32) (rows3 y)) (chans3 y * times3 y)).
Proof.
  intros H. unfold reshape_rows. destruct (rows3 y); [congruence|reflexivity].
Qed.

Lemma reshape_rows_empty (y : tensor3 f32) :
  rows3 y = [] -> reshape_rows y = Raise RuntimeError.
Proof. intros H. unfold reshape_rows. now rewrite H. Qed.

Lemma reshape_rows_rows (y : tensor3 f32) t :
  reshape_rows y = Ok t -> List.length (rows2 t) = List.length (rows3 y).
Proof.
  unfold reshape_rows. destruct (List.length (rows3 y) =? 0); [discriminate|].
  intros H. inversion H. simpl. apply length_map.
Qed.

Lemma concat_matrix_length c t (m : list (list f32)) :
  matrix_wf c t m -> List.length (List.concat m) = c * t.
Proof.
  intros [Hlen Hrows]. subst c.
  induction Hrows as [|series m Hs _ IH]; simpl; [reflexivity|].
  rewrite length_app, IH, Hs. reflexivity.
Qed.

Lemma reshape_2d_concat c t (m : list (list f32)) :
  matrix_wf c t m -> reshape_2d c t (List.concat m) = m.
Proof.
  intros [Hlen Hrows]. subst c. unfold reshape_2d.
  induction Hrows as [|series m Hs _ IH]; [reflexivity|].
  cbn [List.length List.concat seq map]. f_equal.
  - rewrite Nat.mul_0_l. cbn [skipn]. rewrite firstn_app, Hs, Nat.sub_diag.
    cbn [firstn]. rewrite app_nil_r. rewrite <- Hs. apply firstn_all.
  - rewrite <- seq_shift, map_map. rewrite <- IH at 2.
    apply map_ext. intros i.
    replace (S i * t) with (List.length series + i * t) by lia.
    now rewrite skipn_app, skipn_all2, Nat.add_comm, Nat.add_sub by lia.
Qed.

End Targets.

(** *** The batch sampler *)

Lemma ceil_div_one n b : 0 < n <= b -> Np.ceil_div n b = 1.
Proof.
  intros H. unfold Np.ceil_div.
  replace (n + b - 1) with (1 * b + (n - 1)) by lia.
  rewrite Nat.div_add_l, Nat.div_small by lia. reflexivity.
Qed.

Lemma ceil_div_add b n : 0 < b -> Np.ceil_div (b + n) b = S (Np.ceil_div n b).
Proof.
  intros H. unfold Np.ceil_div.
  replace (b + n + b - 1) with (1 * b + (n + b - 1)) by lia.
  rewrite Nat.div_add_l by lia. reflexivity.
Qed.

Lemma ceil_div_zero b : 0 < b -> Np.ceil_div 0 b = 0.
Proof. intros H. unfold Np.ceil_div. apply Nat.div_small. lia. Qed.



Lemma batch_sampler_single b sampler :
  forall batch,
    sampler <> [] -> List.length batch + List.length sampler = b ->
    Torch.batch_sampler b batch sampler = [(batch ++ sampler)%list].
Proof.
  induction sampler as [|idx rest IH]; intros batch Hne Hlen; [congruence|].
  cbn [Torch.batch_sampler]. rewrite length_app. cbn [List.length] in *.
  destruct rest as [|idx' rest].
  - replace (List.length batch + 1 =? b) with true
      by (symmetry; apply Nat.eqb_eq; simpl in *; lia).
    reflexivity.
  - replace (List.length batch + 1 =? b) with false
      by (symmetry; apply Nat.eqb_neq; simpl in *; lia).
    rewrite IH; [now rewrite <- app_assoc|congruence|].
    rewrite length_app. simpl in *. lia.
Qed.

(** *** The dataset class *)

Section Builder.
Variables image f32 : Type.

Lemma EegDataset_init_single time_point (X_train X : list image) (y : tensor3 f32) :
  EegDataset_init time_point X_train X y "single" None None
  = (t <- select_time y time_point ;;
     Ok (Build_EegDataset "single" X_train (Some t) None None)).
Proof.
  unfold EegDataset_init. cbn [String.eqb Ascii.eqb Bool.eqb].
  now destruct (select_time y time_point).
Qed.

Lemma EegDataset_init_all time_point (X_train X : list image) (y : tensor3 f32) :
  EegDataset_init time_point X_train X y "all" None None
  = (t <- reshape_rows y ;;
     Ok (Build_EegDataset "all" X_train (Some t) None None)).
Proof.
  unfold EegDataset_init. cbn [String.eqb Ascii.eqb Bool.eqb].
  now destruct (reshape_rows y).
Qed.

Lemma EegDataset_init_other time_point (X_train X : list image) (y : tensor3 f32) mode :
  mode <> "single" -> mode <> "all" ->
  EegDataset_init time_point X_train X y mode None None
  = Ok (Build_EegDataset mode X_train None None None).
Proof.
  intros H1 H2. unfold EegDataset_init.
  apply String.eqb_neq in H1, H2. now rewrite H1, H2.
Qed.

Lemma mode_cases (mode : string) :
  mode = "single" \/ mode = "all" \/ (mode <> "single" /\ mode <> "all").
Proof.
  destruct (String.eqb_spec mode "single"); auto.
  destruct (String.eqb_spec mode "all"); auto.
Qed.

Lemma EegDataset_init_inv time_point (X_train X : list image) (y : tensor3 f32) mode ds :
  EegDataset_init time_point X_train X y mode None None = Ok ds ->
  exists self_y,
    ds = Build_EegDataset mode X_train self_y None None /\
    ((mode = "single" /\ exists t, select_time y time_point = Ok t /\ self_y = Some t) \/
     (mode = "all" /\ exists t, reshape_rows y = Ok t /\ self_y = Some t) \/
     (mode <> "single" /\ mode <> "all" /\ self_y = None)).
Proof.
  destruct (mode_cases mode) as [->|[->|[H1 H2]]].
  - rewrite EegDataset_init_single.
    destruct (select_time y time_point) as [t|]; cbn [bind]; [|discriminate].
    intros H. inversion H. eexists. split; [reflexivity|]. left. eauto.
  - rewrite EegDataset_init_all.
    destruct (reshape_rows y) as [t|]; cbn [bind]; [|discriminate].
    intros H. inversion H. eexists. split; [reflexivity|]. right. left. eauto.
  - rewrite EegDataset_init_other by assumption.
    intros H. inversion H. eexists. split; [reflexivity|]. right. right. auto.
Qed.

Lemma EegDataset_init_len time_point (X_train X : list image) (y : tensor3 f32) mode ds :
  EegDataset_init time_point X_train X y mode None None = Ok ds ->
  (mode = "single" \/ mode = "all" ->
   exists t, ds_y ds = Some t /\ List.length (rows2 t) = List.length (rows3 y) /\
             EegDataset_len ds = Ok (List.length (rows3 y))) /\
  (mode <> "single" -> mode <> "all" -> EegDataset_len ds = Raise AttributeError).
Proof.
  intros H. apply EegDataset_init_inv in H as [self_y [-> Hc]].
  unfold EegDataset_len. cbn [ds_y].
  destruct Hc as [[-> [t [E ->]]]|[[-> [t [E ->]]]|[H1 [H2 ->]]]].
  - split; [|congruence]. intros _. exists t.
    rewrite (select_time_rows _ _ E). auto.
  - split; [|congruence]. intros _. exists t.
    rewrite (reshape_rows_rows _ E). auto.
  - split; [intros [?|?]; congruence|reflexivity].
Qed.

End Builder.

Section Loaders.
Variables image f32 : Type.

Lemma DataLoader_init_shuffle (ds : EegDataset image f32) bs n :
  EegDataset_len ds = Ok n -> 0 < n -> (0 < bs)%Z ->
  DataLoader_init ds bs true = Ok (Build_DataLoader ds bs true).
Proof.
  intros E Hn Hb. unfold DataLoader_init. rewrite E. cbn [bind].
  replace (n =? 0) with false by (symmetry; apply Nat.eqb_neq; lia).
  cbn [bind].
  replace (bs <=? 0)%Z with false by (symmetry; apply Z.leb_gt; lia).
  reflexivity.
Qed.

Lemma DataLoader_init_sequential (ds : EegDataset image f32) bs :
  (0 < bs)%Z -> DataLoader_init ds bs false = Ok (Build_DataLoader ds bs false).
Proof.
  intros Hb. unfold DataLoader_init. cbn [bind].
  replace (bs <=? 0)%Z with false by (symmetry; apply Z.leb_gt; lia).
  reflexivity.
Qed.

Lemma DataLoader_init_inv (ds : EegDataset image f32) bs shuffle dl :
  DataLoader_init ds bs shuffle = Ok dl ->
  dl = Build_DataLoader ds bs shuffle /\ (0 < bs)%Z /\
  (shuffle = true -> exists n, EegDataset_len ds = Ok n /\ 0 < n).
Proof.
  unfold DataLoader_init. destruct shuffle.
  - destruct (EegDataset_len ds) as [n|]; cbn [bind]; [|discriminate].
    destruct (n =? 0) eqn:En; cbn [bind]; [discriminate|].
    destruct (bs <=? 0)%Z eqn:Eb; [discriminate|].
    intros H. inversion H. apply Nat.eqb_neq in En. apply Z.leb_gt in Eb.
    repeat split; auto. intros _. exists n. split; [reflexivity|lia].
  - cbn [bind]. destruct (bs <=? 0)%Z eqn:Eb; [discriminate|].
    intros H. inversion H. apply Z.leb_gt in Eb. repeat split; auto. discriminate.
Qed.


Variable args : Namespace.
Variable time_point : Z.
Variables X_train X_val X_test : list image.
Variables y_train y_val y_test : tensor3 f32.

Lemma create_dataloader_ok train_ds val_ds test_ds n_train n_val n_test :
  EegDataset_init time_point X_train X_train y_train (modeled_time_points args) None None
    = Ok train_ds ->
  EegDataset_init time_point X_train X_val y_val (modeled_time_points args) None None
    = Ok val_ds ->
  EegDataset_init time_point X_train X_test y_test (modeled_time_points args) None None
    = Ok test_ds ->
  EegDataset_len train_ds = Ok n_train ->
  EegDataset_len val_ds = Ok n_val ->
  EegDataset_len test_ds = Ok n_test ->
  0 < n_train -> 0 < n_val -> 0 < n_test -> (0 < batch_size args)%Z ->
  create_dataloader args time_point X_train X_val X_test y_train y_val y_test
  = Ok (Build_DataLoader train_ds (batch_size args) true,
        Build_DataLoader val_ds (Z.of_nat n_val) false,
        Build_DataLoader test_ds (Z.of_nat n_test) false).
Proof.
  intros E1 E2 E3 L1 L2 L3 H1 H2 H3 Hb. unfold create_dataloader.
  rewrite E1, E2, E3. cbn [bind].
  rewrite (DataLoader_init_shuffle _ L1 H1 Hb). cbn [bind].
  rewrite L2. cbn [bind]. rewrite DataLoader_init_sequential by lia. cbn [bind].
  rewrite L3. cbn [bind]. rewrite DataLoader_init_sequential by lia. reflexivity.
Qed.

Lemma create_dataloader_inv train_dl val_dl test_dl :
  create_dataloader args time_point X_train X_val X_test y_train y_val y_test
    = Ok (train_dl, val_dl, test_dl) ->
  exists train_ds val_ds test_ds n_train n_val n_test,
    EegDataset_init time_point X_train X_train y_train (modeled_time_points args) None None
      = Ok train_ds /\
    EegDataset_init time_point X_train X_val y_val (modeled_time_points args) None None
      = Ok val_ds /\
    EegDataset_init time_point X_train X_test y_test (modeled_time_points args) None None
      = Ok test_ds /\
    EegDataset_len train_ds = Ok n_train /\
    EegDataset_len val_ds = Ok n_val /\
    EegDataset_len test_ds = Ok n_test /\
    0 < n_train /\ 0 < n_val /\ 0 < n_test /\ (0 < batch_size args)%Z /\
    train_dl = Build_DataLoader train_ds (batch_size args) true /\
    val_dl = Build_DataLoader val_ds (Z.of_nat n_val) false /\
    test_dl = Build_DataLoader test_ds (Z.of_nat n_test) false.
Proof.
  unfold create_dataloader.
  destruct (EegDataset_init time_point X_train X_train y_train _ None None)
    as [train_ds|] eqn:E1; cbn [bind]; [|discriminate].
  destruct (EegDataset_init time_point X_train X_val y_val _ None None)
    as [val_ds|] eqn:E2; cbn [bind]; [|discriminate].
  destruct (EegDataset_init time_point X_train X_test y_test _ None None)
    as [test_ds|] eqn:E3; cbn [bind]; [|discriminate].
  destruct (DataLoader_init train_ds (batch_size args) true) as [d1|] eqn:D1;
    cbn [bind]; [|discriminate].
  destruct (EegDataset_len val_ds) as [n_val|] eqn:L2; cbn [bind]; [|discriminate].
  destruct (DataLoader_init val_ds (Z.of_nat n_val) false) as [d2|] eqn:D2;
    cbn [bind]; [|discriminate].
  destruct (EegDataset_len test_ds) as [n_test|] eqn:L3; cbn [bind]; [|discriminate].
  destruct (DataLoader_init test_ds (Z.of_nat n_test) false) as [d3|] eqn:D3;
    cbn [bind]; [|discriminate].
  intros H. inversion H; subst.
  apply DataLoader_init_inv in D1 as [-> [Hb Hs]].
  destruct (Hs eq_refl) as [n_train [L1 H1]].
  apply DataLoader_init_inv in D2 as [-> [H2 _]].
  apply DataLoader_init_inv in D3 as [-> [H3 _]].
  exists train_ds, val_ds, test_ds, n_train, n_val, n_test.
  repeat split; auto; lia.
Qed.

End Loaders.

(** *** Positions and entries *)



Lemma Forall2_nth_error_left {A B} (P : A -> B -> Prop) l l' i a :
  Forall2 P l l' -> nth_error l i = Some a ->
  exists b, nth_error l' i = Some b /\ P a b.
Proof.
  intros F. revert i. induction F as [|x y l l' Pxy _ IH]; intros [|i] H;
    simpl in *; try discriminate.
  - inversion H; subst. eauto.
  - now apply IH.
Qed.

(** *** Access to a sequence and to a batch *)

Lemma EegDataset_getitem_at {image f32} (ds : EegDataset image f32) t idx img target :
  ds_y ds = Some t -> ds_transform ds = None -> ds_target_transform ds = None ->
  nth_error (ds_X ds) idx = Some img ->
  nth_error (rows2 t) idx = Some target ->
  EegDataset_getitem ds (Z.of_nat idx) = Ok (img, target).
Proof.
  intros Hy Ht Htt Hx Hr. unfold EegDataset_getitem.
  rewrite (getitem_nth_error _ _ Hx). cbn [bind]. rewrite Hy.
  rewrite (getitem_nth_error _ _ Hr). cbn [bind]. now rewrite Ht, Htt.
Qed.

Lemma getitem_ok {A} (l : list A) i a :
  getitem l i = Ok a ->
  valid_index i (List.length l) /\
  nth_error l (position i (List.length l)) = Some a.
Proof.
  intros H.
  assert (Hv : valid_index i (List.length l)).
  { destruct (Z_lt_dec i (- Z.of_nat (List.length l))) as [Hlo|Hlo];
      [rewrite getitem_invalid in H by (unfold valid_index; lia); discriminate|].
    destruct (Z_lt_dec i (Z.of_nat (List.length l))) as [Hhi|Hhi];
      [unfold valid_index; lia|].
    rewrite getitem_invalid in H by (unfold valid_index; lia). discriminate. }
  split; [exact Hv|].
  destruct (getitem_valid l Hv) as [a' [E N]]. congruence.
Qed.

Lemma skipn_nth_error {X} (l : list X) a x :
  nth_error l a = Some x -> skipn a l = x :: skipn (S a) l.
Proof.
  revert a. induction l as [|y l IH]; intros [|a] H; simpl in *; try discriminate.
  - now inversion H.
  - now apply IH.
Qed.

Section Fetch.
Variables image f32 : Type.
Variable ds : EegDataset image f32.
Variable t : tensor2 f32.
Hypothesis ds_targets : ds_y ds = Some t.
Hypothesis ds_no_transform : ds_transform ds = None.
Hypothesis ds_no_target_transform : ds_target_transform ds = None.

Lemma EegDataset_getitem_ok idx img target :
  EegDataset_getitem ds idx = Ok (img, target) ->
  valid_index idx (List.length (rows2 t)) /\
  nth_error (ds_X ds) (position idx (List.length (ds_X ds))) = Some img /\
  nth_error (rows2 t) (position idx (List.length (rows2 t))) = Some target.
Proof.
  unfold EegDataset_getitem.
  rewrite ds_targets, ds_no_transform, ds_no_target_transform.
  destruct (getitem (ds_X ds) idx) as [img'|] eqn:Ei; cbn [bind]; [|discriminate].
  destruct (getitem (rows2 t) idx) as [target'|] eqn:Et; cbn [bind]; [|discriminate].
  cbn [apply_hook]. intros H. inversion H; subst.
  apply getitem_ok in Ei as [_ Ei]. apply getitem_ok in Et as [Hv Et]. auto.
Qed.

Lemma fetch_range a k imgs targets :
  fetch ds (seq a k) = Ok (imgs, targets) ->
  imgs = firstn k (skipn a (ds_X ds)) /\
  targets = firstn k (skipn a (rows2 t)) /\
  List.length targets = k.
Proof.
  unfold fetch. revert a imgs targets.
  induction k as [|k IH]; intros a imgs targets; cbn [seq mapM].
  - cbn [bind List.split]. intros H. inversion H. auto.
  - destruct (EegDataset_getitem ds (Z.of_nat a)) as [[img target]|] eqn:E;
      cbn [bind]; [|discriminate].
    destruct (mapM (fun idx => EegDataset_getitem ds (Z.of_nat idx)) (seq (S a) k))
      as [samples|] eqn:Es; cbn [bind]; [|discriminate].
    cbn [List.split]. destruct (List.split samples) as [imgs' targets'] eqn:Sp.
    intros H. inversion H; subst.
    destruct (IH (S a) imgs' targets') as [-> [-> Hl]];
      [rewrite Es; cbn [bind]; now rewrite Sp|].
    apply EegDataset_getitem_ok in E as [_ [Ei Et]].
    unfold position in Ei, Et.
    replace (0 <=? Z.of_nat a)%Z with true in * by (symmetry; apply Z.leb_le; lia).
    rewrite Nat2Z.id in Ei, Et.
    rewrite (skipn_nth_error _ _ Ei), (skipn_nth_error _ _ Et). cbn [firstn List.length].
    repeat split; auto.
Qed.



End Fetch.

Lemma EegDataset_init_valid {image f32} time_point (X_train X : list image)
    (y : tensor3 f32) mode :
  wf3 y -> rows3 y <> [] ->
  (mode = "single" /\ valid_index time_point (times3 y)) \/ mode = "all" ->
  exists ds,
    EegDataset_init time_point X_train X y mode None None = Ok ds /\
    EegDataset_len ds = Ok (List.length (rows3 y)).
Proof.
  intros Hwf Hne Hmode.
  assert (Hinit : exists ds,
             EegDataset_init time_point X_train X y mode None None = Ok ds).
  { destruct Hmode as [[-> Hv]| ->].
    - destruct (select_time_ok Hwf Hv) as [rows [E _]].
      rewrite EegDataset_init_single, E. cbn [bind]. eauto.
    - rewrite EegDataset_init_all, (reshape_rows_ok y Hne). cbn [bind]. eauto. }
  destruct Hinit as [ds E]. exists ds. split; [exact E|].
  destruct (EegDataset_init_len _ _ _ _ _ E) as [Hl _].
  destruct Hl as [t [_ [_ Hl]]]; [tauto|exact Hl].
Qed.

Lemma EegDataset_init_shape {image f32} time_point (X_train X : list image)
    (y : tensor3 f32) mode ds n :
  EegDataset_init time_point X_train X y mode None None = Ok ds ->
  EegDataset_len ds = Ok n ->
  exists t,
    ds = Build_EegDataset mode X_train (Some t) None None /\
    List.length (rows2 t) = List.length (rows3 y) /\
    n = List.length (rows3 y).
Proof.
  intros E L.
  destruct (EegDataset_init_len _ _ _ _ _ E) as [Hv Hi].
  pose proof E as E'. apply EegDataset_init_inv in E' as [self_y [-> _]].
  destruct (mode_cases mode) as [Hm|[Hm|[Hm Hm']]].
  - destruct Hv as [t [Hy [Hr Hl]]]; [tauto|]. cbn [ds_y] in Hy. subst self_y.
    exists t. repeat split; congruence.
  - destruct Hv as [t [Hy [Hr Hl]]]; [tauto|]. cbn [ds_y] in Hy. subst self_y.
    exists t. repeat split; congruence.
  - rewrite Hi in L by assumption. discriminate.
Qed.

(** *** The sample inputs *)

Lemma sample_responses_wf first n : wf3 (Sample.responses first n).
Proof.
  unfold wf3, Sample.responses. cbn [rows3 chans3 times3].
  apply Forall_map, Forall_forall. intros k _.
  unfold matrix_wf, Sample.response. repeat constructor.
Qed.

Lemma Qdiv_count_1 x : Sample.Qdiv_count x 1 = x.
Proof.
  destruct x as [n d]. unfold Sample.Qdiv_count, QArith_base.Qdiv, QArith_base.Qmult.
  simpl. now rewrite Z.mul_1_r, Pos.mul_1_r.
Qed.

Lemma sample_trial_wf k : matrix_wf 2 3 (Sample.trial k).
Proof. unfold matrix_wf, Sample.trial. simpl. repeat constructor. Qed.

Lemma sample_training_archive_wf : wf4 (preprocessed_eeg_data Sample.training_archive).
Proof.
  unfold wf4. cbn [Sample.training_archive preprocessed_eeg_data rows4 reps4 chans4 times4].
  apply Forall_map, Forall_forall. intros k _. split; [reflexivity|].
  repeat constructor; apply sample_trial_wf.
Qed.

Lemma sample_test_archive_wf : wf4 (preprocessed_eeg_data Sample.test_archive).
Proof.
  unfold wf4. cbn [Sample.test_archive preprocessed_eeg_data rows4 reps4 chans4 times4].
  apply Forall_map, Forall_forall. intros k _. split; [reflexivity|].
  repeat constructor; apply sample_trial_wf.
Qed.

(** ** The claims *)

(** C1: every partition's sequence should serve the images of its own
    list.  On the sample lists the sequences built for validation and for
    test both serve, at index 0, the first training image: the constructor
    binds the training list whatever list it is given. *)
Theorem validation_and_test_serve_training_images :
  exists train_dl val_dl test_dl,
    create_dataloader Sample.args_all 0 Sample.X_train Sample.X_val Sample.X_test
      (Sample.responses 1 2) (Sample.responses 0 1) (Sample.responses 3 1)
    = Ok (train_dl, val_dl, test_dl) /\
    ds_X (dl_dataset val_dl) = Sample.X_train /\
    ds_X (dl_dataset test_dl) = Sample.X_train /\
    EegDataset_getitem (dl_dataset val_dl) 0
    = Ok ("train_0", [0; 1; 2; 10; 11; 12]%Z) /\
    EegDataset_getitem (dl_dataset test_dl) 0
    = Ok ("train_0", [300; 301; 302; 310; 311; 312]%Z) /\
    getitem Sample.X_val 0 = Ok "val_0" /\
    getitem Sample.X_test 0 = Ok "test_0".
Proof.
  do 3 eexists. split; [reflexivity|]. repeat split.
Qed.



(** C3: for a well-shaped response tensor [stimuli, channels, timepoints],
    a valid time index and any stimulus [idx] with series [m], the dataset
    built in 'single' mode holds at [idx] a target of [channels] entries,
    entry [c] being the value of channel [c] at the selected time; built in
    'all' mode it holds a target of [channels * timepoints] entries whose
    reshape to [channels, timepoints] is [m] again.  Indexed access returns
    that target next to the image at [idx]. *)
Theorem target_layouts
    (image f32 : Type) (time_point : Z) (X_train X : list image)
    (y : tensor3 f32) (idx : nat) (m : list (list f32)) :
  wf3 y -> valid_index time_point (times3 y) ->
  nth_error (rows3 y) idx = Some m ->
  (exists ds t target,
      EegDataset_init time_point X_train X y "single" None None = Ok ds /\
      ds_y ds = Some t /\
      shape2 t = (List.length (rows3 y), chans3 y) /\
      nth_error (rows2 t) idx = Some target /\
      List.length target = chans3 y /\
      (forall c, nth_error target c = entry m c (position time_point (times3 y))) /\
      (forall img, nth_error X_train idx = Some img ->
                   EegDataset_getitem ds (Z.of_nat idx) = Ok (img, target))) /\
  (exists ds t target,
      EegDataset_init time_point X_train X y "all" None None = Ok ds /\
      ds_y ds = Some t /\
      shape2 t = (List.length (rows3 y), chans3 y * times3 y) /\
      nth_error (rows2 t) idx = Some target /\
      List.length target = chans3 y * times3 y /\
      reshape_2d (chans3 y) (times3 y) target = m /\
      (forall img, nth_error X_train idx = Some img ->
                   EegDataset_getitem ds (Z.of_nat idx) = Ok (img, target))).
Proof.
  intros Hwf Hv Hm.
  assert (Hmwf : matrix_wf (chans3 y) (times3 y) m).
  { unfold wf3 in Hwf. rewrite Forall_forall in Hwf.
    apply Hwf. eapply nth_error_In; eauto. }
  split.
  - destruct (select_time_ok Hwf Hv) as [rows [E F]].
    destruct (Forall2_nth_error_left _ F Hm) as [target [Ht [Hl Hc]]].
    eexists. exists (Tensor2 rows (chans3 y)), target.
    rewrite EegDataset_init_single, E. cbn [bind].
    split; [reflexivity|]. split; [reflexivity|].
    split. { unfold shape2. cbn [rows2 cols2]. f_equal.
             symmetry. eapply Forall2_length; eauto. }
    split; [exact Ht|]. split; [exact Hl|]. split; [exact Hc|].
    intros img Hi.
    apply (@EegDataset_getitem_at _ _ _ (Tensor2 rows (chans3 y))); auto.
  - assert (Hne : rows3 y <> []) by (intros E; rewrite E in Hm; now destruct idx).
    eexists. eexists. exists (List.concat m).
    rewrite EegDataset_init_all, (reshape_rows_ok y Hne). cbn [bind].
    split; [reflexivity|]. split; [reflexivity|].
    split. { unfold shape2. cbn [rows2 cols2]. now rewrite length_map. }
    assert (Hrow : nth_error (map (@List.concat f32) (rows3 y)) idx
                   = Some (List.concat m)) by (now rewrite nth_error_map, Hm).
    split; [exact Hrow|].
    split; [now apply concat_matrix_length|].
    split; [now apply reshape_2d_concat|].
    intros img Hi.
    apply (@EegDataset_getitem_at _ _ _
             (Tensor2 (map (@List.concat f32) (rows3 y)) (chans3 y * times3 y)));
      auto.
Qed.

(** Stimulus 1 of the sample tensor, at time index 2 and in full. *)
Lemma target_layouts_witness :
  wf3 (Sample.responses 0 12) /\
  valid_index 2 (times3 (Sample.responses 0 12)) /\
  nth_error (rows3 (Sample.responses 0 12)) 1 = Some (Sample.response 1) /\
  (exists ds target,
      EegDataset_init 2 Sample.X_train Sample.X_train (Sample.responses 0 12)
        "single" None None = Ok ds /\
      EegDataset_getitem ds 1 = Ok ("train_1", target) /\
      List.length target = 2) /\
  (exists ds target,
      EegDataset_init 2 Sample.X_train Sample.X_train (Sample.responses 0 12)
        "all" None None = Ok ds /\
      EegDataset_getitem ds 1 = Ok ("train_1", target) /\
      List.length target = 6 /\
      reshape_2d 2 3 target = Sample.response 1).
Proof.
  assert (H1 : wf3 (Sample.responses 0 12)).
  { unfold wf3, matrix_wf. simpl. repeat constructor. }
  assert (H2 : valid_index 2 (times3 (Sample.responses 0 12)))
    by (unfold valid_index; simpl; lia).
  assert (H3 : nth_error (rows3 (Sample.responses 0 12)) 1 = Some (Sample.response 1))
    by reflexivity.
  destruct (target_layouts Sample.X_train Sample.X_train 1 H1 H2 H3)
    as [[ds [t [target [E [_ [_ [_ [L [_ G]]]]]]]]]
        [ds' [t' [target' [E' [_ [_ [_ [L' [R' G']]]]]]]]]].
  split; [exact H1|]. split; [exact H2|]. split; [exact H3|]. split.
  - exists ds, target. split; [exact E|]. split; [|exact L].
    apply (G "train_1"). reflexivity.
  - exists ds', target'. split; [exact E'|]. split; [|split; [exact L'|exact R']].
    apply (G' "train_1"). reflexivity.
Defined.

(** C4: [create_dataloader] never compares a number of images with a number
    of stimuli.  Whatever the three image lists are, it returns its three
    loaders as soon as the response tensors are well shaped and not empty,
    the batch size is positive and the mode (with, for 'single', the time
    index) is supported. *)
Theorem construction_ignores_image_counts
    (image f32 : Type) (args : Namespace) (time_point : Z)
    (X_train X_val X_test : list image) (y_train y_val y_test : tensor3 f32) :
  wf3 y_train -> wf3 y_val -> wf3 y_test ->
  rows3 y_train <> [] -> rows3 y_val <> [] -> rows3 y_test <> [] ->
  (0 < batch_size args)%Z ->
  (modeled_time_points args = "single" /\
   valid_index time_point (times3 y_train) /\
   valid_index time_point (times3 y_val) /\
   valid_index time_point (times3 y_test)) \/
  modeled_time_points args = "all" ->
  exists train_dl val_dl test_dl,
    create_dataloader args time_point X_train X_val X_test y_train y_val y_test
    = Ok (train_dl, val_dl, test_dl).
Proof.
  intros W1 W2 W3 N1 N2 N3 Hb Hmode.
  destruct (@EegDataset_init_valid _ _ time_point X_train X_train y_train
              (modeled_time_points args) W1 N1) as [d1 [E1 L1]]; [tauto|].
  destruct (@EegDataset_init_valid _ _ time_point X_train X_val y_val
              (modeled_time_points args) W2 N2) as [d2 [E2 L2]]; [tauto|].
  destruct (@EegDataset_init_valid _ _ time_point X_train X_test y_test
              (modeled_time_points args) W3 N3) as [d3 [E3 L3]]; [tauto|].
  do 3 eexists.
  eapply create_dataloader_ok; eauto.
  - destruct (rows3 y_train); [congruence|simpl; lia].
  - destruct (rows3 y_val); [congruence|simpl; lia].
  - destruct (rows3 y_test); [congruence|simpl; lia].
Qed.

(** Two, one and one images against nine, three and five stimuli. *)
Lemma construction_ignores_image_counts_witness :
  List.length Sample.X_train <> List.length (rows3 (Sample.responses 1 9)) /\
  List.length Sample.X_val <> List.length (rows3 (Sample.responses 0 3)) /\
  List.length Sample.X_test <> List.length (rows3 (Sample.responses 0 5)) /\
  exists train_dl val_dl test_dl,
    create_dataloader Sample.args_single 2 Sample.X_train Sample.X_val Sample.X_test
      (Sample.responses 1 9) (Sample.responses 0 3) (Sample.responses 0 5)
    = Ok (train_dl, val_dl, test_dl).
Proof.
  split; [simpl; lia|]. split; [simpl; lia|]. split; [simpl; lia|].
  apply (@construction_ignores_image_counts string Z Sample.args_single 2).
  - apply sample_responses_wf.
  - apply sample_responses_wf.
  - apply sample_responses_wf.
  - discriminate.
  - discriminate.
  - discriminate.
  - simpl. lia.
  - left. unfold valid_index. simpl. repeat split; lia.
Defined.



(** C6: [load_eeg_data] averages the array of the training archive and the
    array of the test archive over their axis 1: each average has the shape
    [stimuli, channels, timepoints] and holds, at every entry, the sum over
    the trials divided by their number; the training average is then split
    and both are cast.  Where an archive has a single trial per stimulus,
    its average is the array with that axis removed.  The arithmetic is any
    in which dividing by the count 1 is the identity. *)
Theorem load_eeg_data_averages_trials
    (num f32 : Type) (zero : num) (add : num -> num -> num)
    (div_count : num -> nat -> num) (to_f32 : num -> f32)
    (np_load : string -> result (archive num))
    (args : Namespace) (tr te : archive num) :
  (forall x, div_count x 1 = x) ->
  np_load (training_archive_path args) = Ok tr ->
  np_load (test_archive_path args) = Ok te ->
  wf4 (preprocessed_eeg_data tr) ->
  wf4 (preprocessed_eeg_data te) ->
  let avg := mean_axis1 zero add div_count in
  let m_train := avg (preprocessed_eeg_data tr) in
  let m_test := avg (preprocessed_eeg_data te) in
  load_eeg_data zero add div_count to_f32 np_load args
  = Ok (map3 to_f32
          (Tensor3 (select kept (rows3 m_train)) (chans3 m_train) (times3 m_train)),
        map3 to_f32
          (Tensor3 (select held_out (rows3 m_train)) (chans3 m_train) (times3 m_train)),
        map3 to_f32 m_test,
        ch_names tr, times tr) /\
  averages_trials zero add div_count (preprocessed_eeg_data tr) m_train /\
  averages_trials zero add div_count (preprocessed_eeg_data te) m_test /\
  (reps4 (preprocessed_eeg_data tr) = 1 ->
   m_train = squeeze_axis1 (preprocessed_eeg_data tr)) /\
  (reps4 (preprocessed_eeg_data te) = 1 ->
   m_test = squeeze_axis1 (preprocessed_eeg_data te)).
Proof.
  intros Hdiv Htr Hte Wtr Wte avg m_train m_test.
  split; [exact (load_eeg_data_ok zero add div_count to_f32 np_load args Htr Hte)|].
  split; [now apply mean_axis1_averages|].
  split; [now apply mean_axis1_averages|].
  split; intros HR; now apply mean_axis1_single_trial.
Qed.

(** The sample archives: two trials per training stimulus, one per test
    stimulus, over the rationals. *)
Lemma load_eeg_data_averages_trials_witness :
  (exists y_train y_val y_test,
      load_eeg_data Sample.Qzero QArith_base.Qplus Sample.Qdiv_count
        (fun x => x) Sample.np_load Sample.args_all
      = Ok (y_train, y_val, y_test, ["Pz"; "Oz"], times Sample.training_archive) /\
      shape3 y_train = (10, 2, 3) /\ shape3 y_val = (2, 2, 3) /\
      shape3 y_test = (3, 2, 3)) /\
  mean_axis1 Sample.Qzero QArith_base.Qplus Sample.Qdiv_count
    (preprocessed_eeg_data Sample.test_archive)
  = squeeze_axis1 (preprocessed_eeg_data Sample.test_archive).
Proof.
  destruct (@load_eeg_data_averages_trials _ _ Sample.Qzero QArith_base.Qplus
              Sample.Qdiv_count (fun x => x) Sample.np_load Sample.args_all
              Sample.training_archive Sample.test_archive
              Qdiv_count_1 eq_refl eq_refl
              sample_training_archive_wf sample_test_archive_wf)
    as [E [_ [_ [_ S]]]].
  split.
  - do 3 eexists. split; [exact E|]. repeat split.
  - apply S. reflexivity.
Defined.






(** C9: when both archives load, the channel names and the time points
    that [load_eeg_data] returns are those of the training archive, whatever
    the test archive holds. *)
Theorem metadata_passes_through
    (num f32 : Type) (zero : num) (add : num -> num -> num)
    (div_count : num -> nat -> num) (to_f32 : num -> f32)
    (np_load : string -> result (archive num))
    (args : Namespace) (tr te : archive num) :
  np_load (training_archive_path args) = Ok tr ->
  np_load (test_archive_path args) = Ok te ->
  exists y_train y_val y_test,
    load_eeg_data zero add div_count to_f32 np_load args
    = Ok (y_train, y_val, y_test, ch_names tr, times tr).
Proof.
  intros Htr Hte. do 3 eexists.
  exact (load_eeg_data_ok zero add div_count to_f32 np_load args Htr Hte).
Qed.

(** The sample archives carry different channel names. *)
Lemma metadata_passes_through_witness :
  ch_names Sample.test_archive <> ch_names Sample.training_archive /\
  exists y_train y_val y_test,
    load_eeg_data Sample.Qzero QArith_base.Qplus Sample.Qdiv_count
      (fun x => x) Sample.np_load Sample.args_all
    = Ok (y_train, y_val, y_test,
          ch_names Sample.training_archive, times Sample.training_archive).
Proof.
  split; [discriminate|].
  apply (@metadata_passes_through _ _ Sample.Qzero QArith_base.Qplus
           Sample.Qdiv_count (fun x => x) Sample.np_load Sample.args_all
           Sample.training_archive Sample.test_archive); reflexivity.
Defined.



(** * Further properties *)

(** ** load_images: which files are read *)

Lemma string_length_append (a b : string) :
  String.length (a ++ b) = String.length a + String.length b.
Proof. induction a as [|c a IH]; simpl; [reflexivity|now rewrite IH]. Qed.

Lemma substring_append_skip (a b : string) n m :
  substring (String.length a + n) m (a ++ b) = substring n m b.
Proof. induction a as [|c a IH]; simpl; [reflexivity|exact IH]. Qed.

Lemma endswith_append (a b suffix : string) :
  endswith b suffix = true -> endswith (a ++ b) suffix = true.
Proof.
  unfold endswith. rewrite !andb_true_iff, !Nat.leb_le, string_length_append.
  intros [Hlen Hsub]. split; [lia|].
  replace (String.length a + String.length b - String.length suffix)
    with (String.length a + (String.length b - String.length suffix)) by lia.
  now rewrite substring_append_skip.
Qed.

Lemma endswith_path_join (root file suffix : string) :
  endswith file suffix = true -> endswith (path_join root file) suffix = true.
Proof.
  intros H. unfold path_join.
  destruct (starts_with_sep file); [exact H|].
  destruct ((String.length root =? 0) || endswith root "/").
  - now apply endswith_append.
  - now apply endswith_append, endswith_append.
Qed.

Lemma collect_images_In (walk : list walk_item) (p : string) :
  In p (collect_images walk) <->
  exists root dirs files file,
    In (root, dirs, files) walk /\ In file files /\
    endswith file ".jpg" = true /\ p = path_join root file.
Proof.
  unfold collect_images, jpg_files. rewrite in_flat_map. split.
  - intros [[[root dirs] files] [Hw Hp]].
    apply in_map_iff in Hp as [file [<- Hf]]. apply filter_In in Hf as [Hf He].
    exists root, dirs, files, file. auto.
  - intros (root & dirs & files & file & Hw & Hf & He & ->).
    exists (root, dirs, files). split; [exact Hw|].
    apply in_map, filter_In. auto.
Qed.

Lemma collect_images_jpg (walk : list walk_item) (p : string) :
  In p (collect_images walk) -> endswith p ".jpg" = true.
Proof.
  intros H. apply collect_images_In in H as (root & dirs & files & file & _ & _ & He & ->).
  now apply endswith_path_join.
Qed.

Lemma sort_In l p : In p (PathSort.sort l) <-> In p l.
Proof.
  split; apply Permutation_in;
    [apply Permutation_sym|]; apply PathSort.Permuted_sort.
Qed.

Lemma mapM_ext_in {A B} (f g : A -> result B) l :
  (forall a, In a l -> f a = g a) -> mapM f l = mapM g l.
Proof.
  induction l as [|a l IH]; intros H; cbn [mapM]; [reflexivity|].
  rewrite (H a) by now left. rewrite IH by (intros; apply H; now right).
  reflexivity.
Qed.

Lemma mapM_all_ok {A B} (f : A -> result B) (g : A -> B) l :
  (forall a, In a l -> f a = Ok (g a)) -> mapM f l = Ok (map g l).
Proof.
  induction l as [|a l IH]; intros H; cbn [mapM map]; [reflexivity|].
  rewrite (H a) by now left. cbn [bind].
  rewrite IH by (intros; apply H; now right). reflexivity.
Qed.

Lemma mapM_In_raise {A B} (f : A -> result B) l a e :
  In a l -> f a = Raise e -> exists e', mapM f l = Raise e'.
Proof.
  induction l as [|b l IH]; intros Hin Hf; [contradiction|]. cbn [mapM].
  destruct (f b) as [y|e0] eqn:E; cbn [bind]; [|eauto].
  destruct Hin as [->|Hin]; [congruence|].
  destruct (IH Hin Hf) as [e' ->]. cbn [bind]. eauto.
Qed.

Lemma select_from_partition {X} (l : list X) pos :
  Permutation (select_from pos held_out l ++ select_from pos kept l)%list l.
Proof.
  revert pos. induction l as [|x l IH]; intros pos; cbn [select_from]; [constructor|].
  unfold kept at 1. destruct (held_out pos); cbn [negb app].
  - now constructor.
  - apply Permutation_sym, Permutation_cons_app, Permutation_sym, IH.
Qed.

Lemma select_partition {X} (l : list X) :
  Permutation (select held_out l ++ select kept l)%list l.
Proof. apply select_from_partition. Qed.

Section ImageFiles.
Variables pil image : Type.
Variable os_walk : string -> list walk_item.
Variable preprocess : pil -> image.

Lemma split_loop_ext_in (open1 open2 : string -> result pil) image_list :
  (forall p, In p image_list -> open1 p = open2 p) ->
  forall pos X_train X_val,
    split_loop open1 preprocess pos image_list X_train X_val
    = split_loop open2 preprocess pos image_list X_train X_val.
Proof.
  induction image_list as [|path rest IH]; intros H pos Xt Xv;
    cbn [split_loop]; [reflexivity|].
  unfold load_one. rewrite (H path) by now left.
  destruct (open2 path) as [img|e]; cbn [bind]; [|reflexivity].
  destruct (pos mod 10 =? 0); apply IH; intros; apply H; now right.
Qed.

(** X1: [load_images] opens no file whose name does not end in ".jpg": two
    decoders that agree on the paths ending in ".jpg" give the same
    result, whatever they do on other paths. *)
Theorem load_images_opens_only_jpg
    (open1 open2 : string -> result pil) (args : Namespace) :
  (forall p, endswith p ".jpg" = true -> open1 p = open2 p) ->
  load_images os_walk open1 preprocess args
  = load_images os_walk open2 preprocess args.
Proof.
  intros H. unfold load_images.
  assert (Hjpg : forall top p,
             In p (PathSort.sort (collect_images (os_walk top))) -> open1 p = open2 p).
  { intros top p Hp. apply H. apply (proj1 (sort_In _ _)) in Hp.
    exact (collect_images_jpg _ _ Hp). }
  rewrite (split_loop_ext_in open1 open2 _ (Hjpg (training_images_dir args))).
  destruct (split_loop open2 preprocess 0 _ [] []) as [[Xt Xv]|e];
    cbn [bind]; [|reflexivity].
  rewrite (mapM_ext_in (load_one open1 preprocess) (load_one open2 preprocess));
    [reflexivity|].
  intros p Hp. unfold load_one. now rewrite (Hjpg _ _ Hp).
Qed.

Variable Image_open_RGB : string -> result pil.

(** X2: one unreadable ".jpg" under the training or the test directory
    makes [load_images] raise: no file is skipped and no partial result is
    returned. *)
Theorem load_images_unreadable_is_fatal (args : Namespace) (p : string) (e : exn) :
  In p (collect_images (os_walk (training_images_dir args))) \/
  In p (collect_images (os_walk (test_images_dir args))) ->
  Image_open_RGB p = Raise e ->
  exists e', load_images os_walk Image_open_RGB preprocess args = Raise e'.
Proof.
  intros Hin He. unfold load_images.
  assert (Hone : load_one Image_open_RGB preprocess p = Raise e)
    by (unfold load_one; now rewrite He).
  destruct (mapM (load_one Image_open_RGB preprocess)
              (PathSort.sort (collect_images (os_walk (training_images_dir args)))))
    as [imgs|e0] eqn:Etrain.
  - rewrite (split_loop_ok _ _ _ Etrain). cbn [bind].
    destruct Hin as [Hin|Hin].
    + apply sort_In in Hin. destruct (mapM_In_raise _ _ _ Hin Hone) as [e' E'].
      congruence.
    + apply sort_In in Hin. destruct (mapM_In_raise _ _ _ Hin Hone) as [e' ->].
      cbn [bind]. eauto.
  - rewrite (split_loop_raise _ _ _ Etrain). cbn [bind]. eauto.
Qed.

(** X3: when every ".jpg" found is readable, [load_images] returns one
    image per file: the test images in the lexicographic order of their
    paths, and the training images divided between the training and the
    validation list without loss or repetition. *)
Theorem load_images_loads_every_jpg (args : Namespace) (decode : string -> pil) :
  (forall p,
      In p (collect_images (os_walk (training_images_dir args))) \/
      In p (collect_images (os_walk (test_images_dir args))) ->
      Image_open_RGB p = Ok (decode p)) ->
  let f := fun p => preprocess (decode p) in
  let train_paths := collect_images (os_walk (training_images_dir args)) in
  let test_paths := collect_images (os_walk (test_images_dir args)) in
  exists X_train X_val X_test,
    load_images os_walk Image_open_RGB preprocess args = Ok (X_train, X_val, X_test) /\
    X_test = map f (PathSort.sort test_paths) /\
    StronglySorted path_le (PathSort.sort test_paths) /\
    Permutation X_test (map f test_paths) /\
    Permutation (X_val ++ X_train)%list (map f train_paths) /\
    List.length X_val + List.length X_train = List.length train_paths.
Proof.
  intros H f train_paths test_paths.
  assert (Htrain : mapM (load_one Image_open_RGB preprocess) (PathSort.sort train_paths)
                   = Ok (map f (PathSort.sort train_paths))).
  { apply mapM_all_ok. intros p Hp. unfold load_one.
    rewrite H by (left; now apply sort_In). reflexivity. }
  assert (Htest : mapM (load_one Image_open_RGB preprocess) (PathSort.sort test_paths)
                  = Ok (map f (PathSort.sort test_paths))).
  { apply mapM_all_ok. intros p Hp. unfold load_one.
    rewrite H by (right; now apply sort_In). reflexivity. }
  exists (select kept (map f (PathSort.sort train_paths))),
         (select held_out (map f (PathSort.sort train_paths))),
         (map f (PathSort.sort test_paths)).
  split.
  { unfold load_images. fold train_paths. fold test_paths.
    rewrite (split_loop_ok _ _ _ Htrain). cbn [bind]. rewrite Htest. reflexivity. }
  split; [reflexivity|]. split; [apply sort_strongly_sorted|].
  split; [apply Permutation_map, Permutation_sym, PathSort.Permuted_sort|].
  assert (P : Permutation (select held_out (map f (PathSort.sort train_paths))
                           ++ select kept (map f (PathSort.sort train_paths)))%list
                (map f train_paths)).
  { eapply Permutation_trans; [apply select_partition|].
    apply Permutation_map, Permutation_sym, PathSort.Permuted_sort. }
  split; [exact P|].
  rewrite <- length_app, (Permutation_length P). apply length_map.
Qed.

End ImageFiles.

(** ** The held-out rule on both loaders *)



Lemma select_from_Forall {X} (P : X -> Prop) p l pos :
  Forall P l -> Forall P (select_from pos p l).
Proof.
  intros H. revert pos. induction H as [|x l Hx _ IH]; intros pos;
    cbn [select_from]; [constructor|].
  destruct (p pos); auto.
Qed.





(** ** load_eeg_data: failures and shapes *)

Section SignalFiles.
Variables num f32 : Type.
Variable zero : num.
Variable add : num -> num -> num.
Variable div_count : num -> nat -> num.
Variable to_f32 : num -> f32.
Variable np_load : string -> result (archive num).


Lemma map3_wf {X Y} (g : X -> Y) (y : tensor3 X) : wf3 y -> wf3 (map3 g y).
Proof.
  unfold wf3, map3. cbn [rows3 chans3 times3]. intros H.
  apply Forall_map. eapply Forall_impl; [|exact H].
  intros m Hm. now apply map_map_wf.
Qed.

(** X7: for well-shaped archives of shapes [S, R, C, T] and [S', R', C',
    T'], [load_eeg_data] returns well-shaped tensors of shapes
    [S - ceil(S/10), C, T] for training, [ceil(S/10), C, T] for validation
    and [S', C', T'] for test. *)
Theorem load_eeg_data_shapes (args : Namespace) (tr te : archive num) :
  np_load (training_archive_path args) = Ok tr ->
  np_load (test_archive_path args) = Ok te ->
  wf4 (preprocessed_eeg_data tr) ->
  wf4 (preprocessed_eeg_data te) ->
  exists y_train y_val y_test,
    load_eeg_data zero add div_count to_f32 np_load args
    = Ok (y_train, y_val, y_test, ch_names tr, times tr) /\
    wf3 y_train /\ wf3 y_val /\ wf3 y_test /\
    let S := List.length (rows4 (preprocessed_eeg_data tr)) in
    shape3 y_train
    = (S - Np.ceil_div S 10,
       chans4 (preprocessed_eeg_data tr), times4 (preprocessed_eeg_data tr)) /\
    shape3 y_val
    = (Np.ceil_div S 10,
       chans4 (preprocessed_eeg_data tr), times4 (preprocessed_eeg_data tr)) /\
    shape3 y_test
    = (List.length (rows4 (preprocessed_eeg_data te)),
       chans4 (preprocessed_eeg_data te), times4 (preprocessed_eeg_data te)).
Proof.
  intros Htr Hte Wtr Wte.
  pose proof (load_eeg_data_ok zero add div_count to_f32 np_load args Htr Hte) as E.
  cbv zeta in E.
  destruct (mean_axis1_averages zero add div_count Wtr) as [Str [Mtr _]].
  destruct (mean_axis1_averages zero add div_count Wte) as [Ste [Mte _]].
  do 3 eexists. split; [exact E|].
  split; [apply map3_wf; unfold wf3; cbn [rows3 chans3 times3];
          apply select_from_Forall; exact Mtr|].
  split; [apply map3_wf; unfold wf3; cbn [rows3 chans3 times3];
          apply select_from_Forall; exact Mtr|].
  split; [apply map3_wf; exact Mte|].
  unfold shape3, map3 in *. cbn [rows3 chans3 times3] in *.
  rewrite !length_map in *.
  rewrite select_kept_length, select_held_out_length.
  inversion Str as [Hs]. inversion Ste as [Hs'].
  cbn [mean_axis1 rows3 chans3 times3]. rewrite !length_map. auto.
Qed.

End SignalFiles.

(** ** The dataset class: indexed access *)

Lemma valid_index_dec i n : {valid_index i n} + {~ valid_index i n}.
Proof.
  unfold valid_index.
  destruct (Z_le_dec (- Z.of_nat n) i); [|right; lia].
  destruct (Z_lt_dec i (Z.of_nat n)); [left; lia|right; lia].
Qed.

Section Access.
Variables image f32 : Type.
Variable time_point : Z.
Variables X_train X : list image.
Variable y : tensor3 f32.
Variable mode : string.
Variable transform : option (image -> image).
Variable target_transform : option (list f32 -> list f32).
Variable ds : EegDataset image f32.
Hypothesis built :
  EegDataset_init time_point X_train X y mode transform target_transform = Ok ds.

Lemma EegDataset_init_hooks :
  exists self_y,
    ds = Build_EegDataset mode X_train self_y transform target_transform /\
    ((mode = "single" \/ mode = "all") ->
     exists t, self_y = Some t /\ List.length (rows2 t) = List.length (rows3 y)) /\
    (mode <> "single" -> mode <> "all" -> self_y = None).
Proof.
  revert built. unfold EegDataset_init.
  destruct (String.eqb_spec mode "single") as [->|H1].
  - destruct (select_time y time_point) as [t|] eqn:E; cbn [bind]; [|discriminate].
    intros H. inversion H. eexists. split; [reflexivity|]. split; [|congruence].
    intros _. exists t. split; [reflexivity|]. eapply select_time_rows; eauto.
  - destruct (String.eqb_spec mode "all") as [->|H2].
    + destruct (reshape_rows y) as [t|] eqn:E; cbn [bind]; [|discriminate].
      intros H. inversion H. eexists. split; [reflexivity|]. split; [|congruence].
      intros _. exists t. split; [reflexivity|]. eapply reshape_rows_rows; eauto.
    + cbn [bind]. intros H. inversion H. eexists. split; [reflexivity|].
      split; [intros [?|?]; congruence|reflexivity].
Qed.

(** X8: on a sequence built in a supported mode, access at an index that
    both the image list and the targets accept returns the image and the
    target at the positions the index denotes in either, each passed
    through its hook when one was given to the constructor.  A negative
    index counts from the end of each, so it pairs entries of different
    positions when the two lengths differ. *)
Theorem getitem_returns_hooked_pair (idx : Z) :
  mode = "single" \/ mode = "all" ->
  valid_index idx (List.length X_train) ->
  valid_index idx (List.length (rows3 y)) ->
  exists t img target,
    ds_y ds = Some t /\
    nth_error X_train (position idx (List.length X_train)) = Some img /\
    nth_error (rows2 t) (position idx (List.length (rows3 y))) = Some target /\
    EegDataset_getitem ds idx
    = Ok (apply_hook transform img, apply_hook target_transform target).
Proof.
  intros Hmode Hx Hy.
  destruct EegDataset_init_hooks as [self_y [-> [Hs _]]].
  destruct (Hs Hmode) as [t [-> Hlen]].
  rewrite <- Hlen in Hy.
  destruct (getitem_valid X_train Hx) as [img [Ei Ni]].
  destruct (getitem_valid (rows2 t) Hy) as [target [Et Nt]].
  exists t, img, target. cbn [ds_y]. rewrite <- Hlen.
  split; [reflexivity|]. split; [exact Ni|]. split; [exact Nt|].
  unfold EegDataset_getitem. cbn [ds_X ds_y ds_transform ds_target_transform].
  rewrite Ei. cbn [bind]. rewrite Et. reflexivity.
Qed.

(** X9: access never returns outside these bounds.  In a supported mode an
    index refused by the image list or by the targets raises IndexError;
    in an unsupported mode every access raises, AttributeError where the
    image list accepts the index and IndexError elsewhere. *)
Theorem getitem_raises_outside_bounds (idx : Z) :
  ((mode = "single" \/ mode = "all") ->
   ~ (valid_index idx (List.length X_train) /\
      valid_index idx (List.length (rows3 y))) ->
   EegDataset_getitem ds idx = Raise IndexError) /\
  (mode <> "single" -> mode <> "all" ->
   (valid_index idx (List.length X_train) ->
    EegDataset_getitem ds idx = Raise AttributeError) /\
   (~ valid_index idx (List.length X_train) ->
    EegDataset_getitem ds idx = Raise IndexError)).
Proof.
  destruct EegDataset_init_hooks as [self_y [-> [Hs Hn]]].
  unfold EegDataset_getitem. cbn [ds_X ds_y ds_transform ds_target_transform].
  split.
  - intros Hmode Hout. destruct (Hs Hmode) as [t [-> Hlen]].
    destruct (valid_index_dec idx (List.length X_train)) as [Hx|Hx].
    + destruct (getitem_valid X_train Hx) as [img [-> _]]. cbn [bind].
      rewrite getitem_invalid by (rewrite Hlen; tauto). reflexivity.
    + now rewrite getitem_invalid.
  - intros H1 H2. rewrite (Hn H1 H2). split; intros Hx.
    + destruct (getitem_valid X_train Hx) as [img [-> _]]. reflexivity.
    + now rewrite getitem_invalid.
Qed.

End Access.

(** ** create_dataloader: when it returns *)

(** X10: for well-shaped response tensors, [create_dataloader] returns its
    loaders exactly when the mode is 'single' with a time index that the
    time axis of each tensor accepts, or 'all'; no partition is empty; and
    the batch size is positive.  In every other case it raises. *)
Theorem create_dataloader_returns_iff
    (image f32 : Type) (args : Namespace) (time_point : Z)
    (X_train X_val X_test : list image) (y_train y_val y_test : tensor3 f32) :
  wf3 y_train -> wf3 y_val -> wf3 y_test ->
  ((exists dls,
       create_dataloader args time_point X_train X_val X_test y_train y_val y_test
       = Ok dls) <->
   ((modeled_time_points args = "single" /\
     valid_index time_point (times3 y_train) /\
     valid_index time_point (times3 y_val) /\
     valid_index time_point (times3 y_test)) \/
    modeled_time_points args = "all") /\
   rows3 y_train <> [] /\ rows3 y_val <> [] /\ rows3 y_test <> [] /\
   (0 < batch_size args)%Z).
Proof.
  intros W1 W2 W3. split.
  - intros [[[d1 d2] d3] Hc].
    apply create_dataloader_inv in Hc
      as (s1 & s2 & s3 & n1 & n2 & n3 & E1 & E2 & E3 & L1 & L2 & L3
          & H1 & H2 & H3 & Hb & _).
    destruct (EegDataset_init_shape _ _ _ _ _ E1 L1) as [t1 [_ [_ ->]]].
    destruct (EegDataset_init_shape _ _ _ _ _ E2 L2) as [t2 [_ [_ ->]]].
    destruct (EegDataset_init_shape _ _ _ _ _ E3 L3) as [t3 [_ [_ ->]]].
    assert (Hne : forall y : tensor3 f32, 0 < List.length (rows3 y) -> rows3 y <> [])
      by (intros y H E; rewrite E in H; simpl in H; lia).
    split; [|auto].
    destruct (mode_cases (modeled_time_points args)) as [Hm|[Hm|[Hm Hm']]].
    + left. split; [exact Hm|].
      assert (Hv : forall X (y : tensor3 f32) ds,
                 EegDataset_init time_point X_train X y (modeled_time_points args)
                   None None = Ok ds ->
                 valid_index time_point (times3 y)).
      { intros X y ds E. rewrite Hm, EegDataset_init_single in E.
        destruct (valid_index_dec time_point (times3 y)) as [Hv|Hv]; [exact Hv|].
        rewrite (select_time_invalid y Hv) in E. discriminate. }
      split; [exact (Hv _ _ _ E1)|]. split; [exact (Hv _ _ _ E2)|exact (Hv _ _ _ E3)].
    + now right.
    + destruct (EegDataset_init_len _ _ _ _ _ E1) as [_ Hr].
      rewrite (Hr Hm Hm') in L1. discriminate.
  - intros [Hmode [N1 [N2 [N3 Hb]]]].
    destruct (@EegDataset_init_valid _ _ time_point X_train X_train y_train
                (modeled_time_points args) W1 N1) as [d1 [E1 L1]]; [tauto|].
    destruct (@EegDataset_init_valid _ _ time_point X_train X_val y_val
                (modeled_time_points args) W2 N2) as [d2 [E2 L2]]; [tauto|].
    destruct (@EegDataset_init_valid _ _ time_point X_train X_test y_test
                (modeled_time_points args) W3 N3) as [d3 [E3 L3]]; [tauto|].
    eexists. eapply create_dataloader_ok; eauto.
    + destruct (rows3 y_train); [congruence|simpl; lia].
    + destruct (rows3 y_val); [congruence|simpl; lia].
    + destruct (rows3 y_test); [congruence|simpl; lia].
Qed.

(** ** The batches of a pass *)

Lemma batch_sampler_full b pre :
  forall batch rest,
    pre <> [] -> List.length batch + List.length pre = b ->
    Torch.batch_sampler b batch (pre ++ rest)
    = (batch ++ pre)%list :: Torch.batch_sampler b [] rest.
Proof.
  induction pre as [|idx pre IH]; intros batch rest Hne Hlen; [congruence|].
  cbn [app Torch.batch_sampler]. rewrite length_app. cbn [List.length] in *.
  destruct pre as [|idx' pre].
  - replace (List.length batch + 1 =? b) with true
      by (symmetry; apply Nat.eqb_eq; simpl in *; lia).
    reflexivity.
  - replace (List.length batch + 1 =? b) with false
      by (symmetry; apply Nat.eqb_neq; simpl in *; lia).
    rewrite IH; [now rewrite <- app_assoc|congruence|].
    rewrite length_app. simpl in *. lia.
Qed.

Lemma batch_sampler_short b sampler :
  forall batch,
    sampler <> [] -> List.length batch + List.length sampler < b ->
    Torch.batch_sampler b batch sampler = [(batch ++ sampler)%list].
Proof.
  induction sampler as [|idx rest IH]; intros batch Hne Hlen; [congruence|].
  cbn [Torch.batch_sampler]. rewrite length_app. cbn [List.length] in *.
  replace (List.length batch + 1 =? b) with false
    by (symmetry; apply Nat.eqb_neq; lia).
  destruct rest as [|idx' rest].
  - cbn [Torch.batch_sampler]. now destruct batch.
  - rewrite IH; [now rewrite <- app_assoc|congruence|].
    rewrite length_app. simpl in *. lia.
Qed.

Lemma ceil_div_sub b n : 0 < b -> b <= n -> Np.ceil_div n b = S (Np.ceil_div (n - b) b).
Proof.
  intros Hb Hn. rewrite <- ceil_div_add by assumption. f_equal. lia.
Qed.

Lemma batch_sampler_slices b :
  0 < b ->
  forall fuel sampler,
    List.length sampler <= fuel ->
    Torch.batch_sampler b [] sampler
    = map (fun i => firstn b (skipn (i * b) sampler))
          (seq 0 (Np.ceil_div (List.length sampler) b)).
Proof.
  intros Hb. induction fuel as [|fuel IH]; intros sampler Hfuel.
  - destruct sampler; [|simpl in Hfuel; lia].
    now rewrite ceil_div_zero.
  - destruct sampler as [|idx rest] eqn:Es; [now rewrite ceil_div_zero|].
    rewrite <- Es in *.
    assert (Hne : sampler <> []) by (rewrite Es; discriminate).
    assert (Hpos : 0 < List.length sampler) by (rewrite Es; simpl; lia).
    destruct (Nat.lt_ge_cases (List.length sampler) b) as [Hlt|Hge].
    + rewrite (@batch_sampler_short b sampler [] Hne) by (simpl; lia).
      rewrite ceil_div_one by lia. cbn [seq map app Nat.mul skipn].
      now rewrite firstn_all2 by lia.
    + rewrite <- (firstn_skipn b sampler) at 1.
      rewrite batch_sampler_full;
        [|intros E; apply (f_equal (@List.length nat)) in E;
          rewrite length_firstn in E; simpl in E; lia
         |rewrite length_firstn; simpl; lia].
      rewrite IH by (rewrite length_skipn; lia).
      rewrite ceil_div_sub with (n := List.length sampler) by assumption.
      cbn [seq map app Nat.mul skipn].
      f_equal. rewrite <- seq_shift, map_map, length_skipn.
      apply map_ext. intros i.
      now rewrite skipn_skipn, Nat.add_comm.
Qed.

Section FetchBatch.
Variables image f32 : Type.
Variable ds : EegDataset image f32.
Variable t : tensor2 f32.
Hypothesis ds_targets : ds_y ds = Some t.
Hypothesis ds_no_transform : ds_transform ds = None.
Hypothesis ds_no_target_transform : ds_target_transform ds = None.

Lemma EegDataset_getitem_raises idx e :
  EegDataset_getitem ds idx = Raise e -> e = IndexError.
Proof.
  unfold EegDataset_getitem. rewrite ds_targets.
  destruct (getitem (ds_X ds) idx) as [img|e1] eqn:Ei; cbn [bind].
  - destruct (getitem (rows2 t) idx) as [target|e2] eqn:Et; cbn [bind];
      [discriminate|].
    intros H. inversion H; subst. eapply getitem_raises; eauto.
  - intros H. inversion H; subst. eapply getitem_raises; eauto.
Qed.

Lemma EegDataset_getitem_past_end i :
  List.length (ds_X ds) <= i \/ List.length (rows2 t) <= i ->
  EegDataset_getitem ds (Z.of_nat i) = Raise IndexError.
Proof.
  intros H. unfold EegDataset_getitem. rewrite ds_targets.
  destruct (getitem (ds_X ds) (Z.of_nat i)) as [img|e1] eqn:Ei; cbn [bind].
  - apply getitem_ok in Ei as [Hv _]. unfold valid_index in Hv.
    rewrite getitem_invalid; [reflexivity|]. unfold valid_index. lia.
  - f_equal. eapply getitem_raises; eauto.
Qed.

Lemma fetch_in_range batch :
  (forall i, In i batch -> i < List.length (ds_X ds) /\ i < List.length (rows2 t)) ->
  exists imgs targets,
    fetch ds batch = Ok (imgs, targets) /\
    Forall2 (fun i img => nth_error (ds_X ds) i = Some img) batch imgs /\
    Forall2 (fun i target => nth_error (rows2 t) i = Some target) batch targets.
Proof.
  unfold fetch. induction batch as [|i rest IH]; intros H; cbn [mapM].
  - exists [], []. cbn [bind List.split]. auto.
  - destruct (H i (or_introl eq_refl)) as [Hx Hy].
    destruct (nth_error (ds_X ds) i) as [img|] eqn:Ei;
      [|apply nth_error_None in Ei; lia].
    destruct (nth_error (rows2 t) i) as [target|] eqn:Et;
      [|apply nth_error_None in Et; lia].
    rewrite (EegDataset_getitem_at ds i ds_targets ds_no_transform
               ds_no_target_transform Ei Et).
    cbn [bind].
    destruct IH as [imgs [targets [E [Fi Ft]]]]; [intros; apply H; now right|].
    destruct (mapM (fun idx => EegDataset_getitem ds (Z.of_nat idx)) rest)
      as [samples|]; cbn [bind] in *; [|discriminate].
    inversion E as [Hs]. cbn [List.split]. rewrite Hs.
    exists (img :: imgs), (target :: targets). auto.
Qed.

Lemma fetch_out_of_range batch i :
  In i batch ->
  List.length (ds_X ds) <= i \/ List.length (rows2 t) <= i ->
  fetch ds batch = Raise IndexError.
Proof.
  intros Hin Hout. unfold fetch.
  destruct (mapM_In_raise (fun idx => EegDataset_getitem ds (Z.of_nat idx))
              batch i Hin (@EegDataset_getitem_past_end i Hout)) as [e' E].
  rewrite E. cbn [bind]. f_equal.
  eapply mapM_raises; [|exact E]. intros a e0. apply EegDataset_getitem_raises.
Qed.

End FetchBatch.

Section Passes.
Variables image f32 : Type.
Variable args : Namespace.
Variable time_point : Z.
Variables X_train X_val X_test : list image.
Variables y_train y_val y_test : tensor3 f32.
Variables train_dl val_dl test_dl : DataLoader image f32.
Hypothesis returned :
  create_dataloader args time_point X_train X_val X_test y_train y_val y_test
  = Ok (train_dl, val_dl, test_dl).

Lemma returned_loaders :
  exists t1 t2 t3,
    let mode := modeled_time_points args in
    train_dl = Build_DataLoader (Build_EegDataset mode X_train (Some t1) None None)
                 (batch_size args) true /\
    val_dl = Build_DataLoader (Build_EegDataset mode X_train (Some t2) None None)
               (Z.of_nat (List.length (rows3 y_val))) false /\
    test_dl = Build_DataLoader (Build_EegDataset mode X_train (Some t3) None None)
                (Z.of_nat (List.length (rows3 y_test))) false /\
    List.length (rows2 t1) = List.length (rows3 y_train) /\
    List.length (rows2 t2) = List.length (rows3 y_val) /\
    List.length (rows2 t3) = List.length (rows3 y_test) /\
    0 < List.length (rows3 y_val) /\ 0 < List.length (rows3 y_test) /\
    (0 < batch_size args)%Z.
Proof.
  pose proof returned as Hc.
  apply create_dataloader_inv in Hc
    as (d1 & d2 & d3 & n1 & n2 & n3 & E1 & E2 & E3 & L1 & L2 & L3
        & H1 & H2 & H3 & Hb & -> & -> & ->).
  destruct (EegDataset_init_shape _ _ _ _ _ E1 L1) as [t1 [-> [R1 ->]]].
  destruct (EegDataset_init_shape _ _ _ _ _ E2 L2) as [t2 [-> [R2 ->]]].
  destruct (EegDataset_init_shape _ _ _ _ _ E3 L3) as [t3 [-> [R3 ->]]].
  exists t1, t2, t3. cbv zeta. repeat split; auto.
Qed.

(** X11: in a pass over the training loader, batch number [i] holds the
    [B] positions that follow the first [i * B] of the drawn order: every
    batch is full except the last, which holds the remaining positions and
    is never empty. *)
Theorem training_batches_are_slices (randperm : list nat) :
  let B := Z.to_nat (batch_size args) in
  let M := List.length randperm in
  batch_indices train_dl randperm
  = Ok (map (fun i => firstn B (skipn (i * B) randperm)) (seq 0 (Np.ceil_div M B))) /\
  forall i, i < Np.ceil_div M B ->
    List.length (firstn B (skipn (i * B) randperm)) = Nat.min B (M - i * B) /\
    0 < Nat.min B (M - i * B) /\
    (S i < Np.ceil_div M B -> Nat.min B (M - i * B) = B).
Proof.
  intros B M.
  destruct returned_loaders as (t1 & t2 & t3 & -> & _ & _ & R1 & _ & _ & _ & _ & Hb).
  assert (HB : 0 < B) by (unfold B; lia).
  split.
  - unfold batch_indices, EegDataset_len.
    cbn [dl_dataset dl_shuffle dl_batch_size ds_y bind]. f_equal.
    apply (batch_sampler_slices HB (fuel := M)). reflexivity.
  - assert (Hslice : forall k, k < Np.ceil_div M B -> k * B < M).
    { intros k Hk. unfold Np.ceil_div in Hk.
      pose proof (Nat.Div0.mul_div_le (M + B - 1) B) as Hd.
      assert (B * S k <= B * ((M + B - 1) / B)) by (apply Nat.mul_le_mono_l; lia).
      lia. }
    intros i Hi. specialize (Hslice i Hi) as Hlt.
    rewrite length_firstn, length_skipn. fold M.
    split; [reflexivity|]. split; [lia|].
    intros Hnext. specialize (Hslice (S i) Hnext). lia.
Qed.

(** X12: a pass over the validation loader, and one over the test loader,
    reads its images from the training list: with at least as many training
    images as targets in the partition, the pass yields one batch that
    pairs the first training images with the targets of the partition;
    with fewer, fetching the batch raises IndexError. *)
Theorem evaluation_pass_reads_training_images :
  let outcome (dl : DataLoader image f32) (y : tensor3 f32) :=
    let n := List.length (rows3 y) in
    exists t,
      ds_y (dl_dataset dl) = Some t /\ List.length (rows2 t) = n /\
      forall order,
        (n <= List.length X_train ->
         iterate dl order = Ok [Ok (firstn n X_train, rows2 t)]) /\
        (List.length X_train < n ->
         iterate dl order = Ok [Raise IndexError]) in
  outcome val_dl y_val /\ outcome test_dl y_test.
Proof.
  intros outcome.
  destruct returned_loaders
    as (t1 & t2 & t3 & _ & -> & -> & _ & R2 & R3 & H2 & H3 & _).
  assert (Hout : forall (t : tensor2 f32) (y : tensor3 f32),
             List.length (rows2 t) = List.length (rows3 y) ->
             0 < List.length (rows3 y) ->
             outcome (Build_DataLoader
                        (Build_EegDataset (modeled_time_points args) X_train
                           (Some t) None None)
                        (Z.of_nat (List.length (rows3 y))) false) y).
  { intros t y R Hpos. unfold outcome. cbn [dl_dataset ds_y].
    exists t. split; [reflexivity|]. split; [exact R|]. intros order.
    set (ds := Build_EegDataset (modeled_time_points args) X_train (Some t) None None).
    assert (Hb : batch_indices (Build_DataLoader ds (Z.of_nat (List.length (rows3 y))) false)
                   order = Ok [seq 0 (List.length (rows3 y))]).
    { unfold batch_indices, EegDataset_len.
      unfold ds. cbn [dl_dataset dl_shuffle dl_batch_size ds_y bind].
      rewrite R, Nat2Z.id. f_equal.
      apply (batch_sampler_single (sampler := seq 0 (List.length (rows3 y))) []).
      - destruct (List.length (rows3 y)); [lia|discriminate].
      - simpl. apply length_seq. }
    unfold iterate. rewrite Hb. cbn [bind map dl_dataset]. split; intros Hn.
    - destruct (@fetch_in_range _ _ ds t eq_refl eq_refl eq_refl
                  (seq 0 (List.length (rows3 y)))) as [imgs [targets [F _]]].
      { intros i Hi. apply in_seq in Hi. unfold ds. cbn [ds_X]. lia. }
      rewrite F. do 3 f_equal.
      rewrite <- R in F.
      destruct (@fetch_range _ _ ds t eq_refl eq_refl eq_refl _ _ _ _ F)
        as [Hi [Ht _]].
      rewrite Hi, Ht. unfold ds. cbn [skipn ds_X]. rewrite R at 1.
      now rewrite firstn_all.
    - do 3 f_equal.
      apply (@fetch_out_of_range _ _ ds t eq_refl _ (List.length X_train)).
      + apply in_seq. lia.
      + left. unfold ds. cbn [ds_X]. lia. }
  split; apply Hout; assumption.
Qed.

(** X13: fetching a batch of the training loader returns, for positions
    within the training images and targets, the image and the target at
    each position, in the order of the batch; a batch that holds a position
    past either raises IndexError. *)
Theorem training_batch_pairs_by_position :
  exists t,
    ds_y (dl_dataset train_dl) = Some t /\
    List.length (rows2 t) = List.length (rows3 y_train) /\
    forall batch,
      ((forall i, In i batch ->
                  i < List.length X_train /\ i < List.length (rows3 y_train)) ->
       exists imgs targets,
         fetch (dl_dataset train_dl) batch = Ok (imgs, targets) /\
         Forall2 (fun i img => nth_error X_train i = Some img) batch imgs /\
         Forall2 (fun i target => nth_error (rows2 t) i = Some target) batch targets) /\
      (forall i, In i batch ->
                 List.length X_train <= i \/ List.length (rows3 y_train) <= i ->
                 fetch (dl_dataset train_dl) batch = Raise IndexError).
Proof.
  destruct returned_loaders as (t1 & t2 & t3 & -> & _ & _ & R1 & _).
  exists t1. cbn [dl_dataset ds_y]. split; [reflexivity|]. split; [exact R1|].
  intros batch. rewrite <- R1. split.
  - intros H.
    exact (@fetch_in_range _ _
             (Build_EegDataset (modeled_time_points args) X_train (Some t1) None None)
             t1 eq_refl eq_refl eq_refl batch H).
  - intros i Hi Hout.
    exact (@fetch_out_of_range _ _
             (Build_EegDataset (modeled_time_points args) X_train (Some t1) None None)
             t1 eq_refl batch i Hi Hout).
Qed.

End Passes.

(** ** The flattened layout and the time slice *)

Lemma nth_error_concat_matrix {A} c t (m : list (list A)) i j :
  matrix_wf c t m -> j < t ->
  nth_error (List.concat m) (i * t + j) = entry m i j.
Proof.
  intros [_ Hrows] Hj. revert i.
  induction Hrows as [|series m Hs _ IH]; intros i.
  - unfold entry. cbn [List.concat]. now rewrite !nth_error_nil.
  - destruct i as [|i]; cbn [List.concat].
    + unfold entry. cbn [nth_error Nat.mul Nat.add].
      now rewrite nth_error_app1 by lia.
    + unfold entry in *. cbn [nth_error]. rewrite <- IH.
      rewrite nth_error_app2 by (simpl; lia). f_equal. simpl. lia.
Qed.

(** X14: the 'all' target of a stimulus is laid out channel by channel:
    its entry [c * T + t] is the value of channel [c] at time [t].  The
    'single' target for the time index [t] is made of the entries
    [c * T + t] of the 'all' target, one for each channel [c]. *)
Theorem all_target_is_channel_major
    (image f32 : Type) (X_train X : list image) (y : tensor3 f32)
    (idx : nat) (m : list (list f32)) (t : nat) :
  wf3 y -> nth_error (rows3 y) idx = Some m -> t < times3 y ->
  exists ds_all flat ds_single slice target_all target_single,
    EegDataset_init (Z.of_nat t) X_train X y "all" None None = Ok ds_all /\
    ds_y ds_all = Some flat /\
    nth_error (rows2 flat) idx = Some target_all /\
    EegDataset_init (Z.of_nat t) X_train X y "single" None None = Ok ds_single /\
    ds_y ds_single = Some slice /\
    nth_error (rows2 slice) idx = Some target_single /\
    forall c,
      c < chans3 y ->
      nth_error target_all (c * times3 y + t) = entry m c t /\
      nth_error target_single c = nth_error target_all (c * times3 y + t).
Proof.
  intros Hwf Hm Ht.
  assert (Hmwf : matrix_wf (chans3 y) (times3 y) m).
  { unfold wf3 in Hwf. rewrite Forall_forall in Hwf.
    apply Hwf. eapply nth_error_In; eauto. }
  assert (Hne : rows3 y <> []) by (intros E; rewrite E in Hm; now destruct idx).
  assert (Hv : valid_index (Z.of_nat t) (times3 y)) by (unfold valid_index; lia).
  destruct (select_time_ok Hwf Hv) as [rows [E F]].
  destruct (Forall2_nth_error_left _ F Hm) as [target [Hrow [_ Hc]]].
  assert (Hpos : position (Z.of_nat t) (times3 y) = t).
  { unfold position. replace (0 <=? Z.of_nat t)%Z with true
      by (symmetry; apply Z.leb_le; lia). apply Nat2Z.id. }
  rewrite Hpos in Hc.
  eexists. exists (Tensor2 (map (@List.concat f32) (rows3 y)) (chans3 y * times3 y)).
  eexists. exists (Tensor2 rows (chans3 y)), (List.concat m), target.
  rewrite EegDataset_init_all, (reshape_rows_ok y Hne), EegDataset_init_single, E.
  cbn [bind ds_y rows2].
  split; [reflexivity|]. split; [reflexivity|].
  split; [now rewrite nth_error_map, Hm|].
  split; [reflexivity|]. split; [reflexivity|]. split; [exact Hrow|].
  intros c Hlt.
  rewrite (nth_error_concat_matrix c Hmwf Ht), Hc. auto.
Qed.

(** ** The directory of a subject *)

Lemma append_inj_l (a x y : string) : a ++ x = a ++ y -> x = y.
Proof.
  induction a as [|c a IH]; cbn [append]; intros H; [exact H|].
  injection H as H. now apply IH.
Qed.

Lemma of_uint_D0 d : Nat.of_uint (Decimal.D0 d) = Nat.of_uint d.
Proof. reflexivity. Qed.

Lemma to_uint_nonnil n : Nat.to_uint n <> Decimal.Nil.
Proof.
  pose proof (DecimalNat.Unsigned.to_of (Nat.to_uint n)) as H.
  rewrite DecimalNat.Unsigned.of_to in H. rewrite H.
  unfold Decimal.unorm. destruct (Decimal.nzhead (Nat.to_uint n)); discriminate.
Qed.

Lemma format_02_parses n :
  option_map Nat.of_uint (NilEmpty.uint_of_string (format_02 n)) = Some n.
Proof.
  unfold format_02.
  set (s := NilEmpty.string_of_uint (Nat.to_uint n)).
  assert (Hs : NilEmpty.uint_of_string s = Some (Nat.to_uint n))
    by apply NilEmpty.usu.
  destruct (String.length s <? 2).
  - cbn [append NilEmpty.uint_of_string]. rewrite Hs. cbn.
    f_equal. apply DecimalNat.Unsigned.of_to.
  - rewrite Hs. cbn [option_map]. f_equal. apply DecimalNat.Unsigned.of_to.
Qed.

(** X15: the directory that [load_eeg_data] reads is
    "eeg_dataset/preprocessed_data/sub-" followed by the subject number
    written in decimal and padded with a zero to two characters at least;
    parsing the written number gives the subject back, so two subjects
    never share a directory. *)
Theorem data_dir_names_the_subject (args args' : Namespace) :
  data_dir args = "eeg_dataset/preprocessed_data/sub-" ++ format_02 (sub args) /\
  2 <= String.length (format_02 (sub args)) /\
  option_map Nat.of_uint (NilEmpty.uint_of_string (format_02 (sub args)))
  = Some (sub args) /\
  (data_dir args = data_dir args' <-> sub args = sub args').
Proof.
  assert (Hdir : forall a, data_dir a
                  = "eeg_dataset/preprocessed_data/sub-" ++ format_02 (sub a))
    by reflexivity.
  split; [apply Hdir|]. split.
  - unfold format_02.
    destruct (String.length (NilEmpty.string_of_uint (Nat.to_uint (sub args))) <? 2)
      eqn:E.
    + pose proof (to_uint_nonnil (sub args)) as Hn.
      destruct (Nat.to_uint (sub args));
        cbn [append NilEmpty.string_of_uint String.length]; try lia.
      congruence.
    + apply Nat.ltb_ge in E. exact E.
  - split; [apply format_02_parses|]. rewrite !Hdir. split.
    + intros H. apply append_inj_l in H.
      pose proof (format_02_parses (sub args)) as P.
      pose proof (format_02_parses (sub args')) as P'.
      rewrite H in P. congruence.
    + now intros ->.
Qed.

(** ** The further properties on the sample inputs *)

(** X1 on the sample tree: the decoder that refuses "notes.txt" loads the
    same images as the one that accepts every file. *)
Lemma load_images_opens_only_jpg_witness :
  Sample.open_any "notes.txt" <> Sample.open_jpg_only "notes.txt" /\
  load_images Sample.os_walk Sample.open_any Sample.keep Sample.args_all
  = load_images Sample.os_walk Sample.open_jpg_only Sample.keep Sample.args_all.
Proof.
  split; [discriminate|].
  apply (@load_images_opens_only_jpg _ _ Sample.os_walk Sample.keep
           Sample.open_any Sample.open_jpg_only Sample.args_all).
  intros p Hp. unfold Sample.open_jpg_only. rewrite Hp. reflexivity.
Defined.

(** X2 on the sample tree, with one damaged training file. *)
Lemma load_images_unreadable_is_fatal_witness :
  exists e',
    load_images Sample.os_walk Sample.open_damaged Sample.keep Sample.args_all
    = Raise e'.
Proof.
  apply (@load_images_unreadable_is_fatal _ _ Sample.os_walk Sample.keep
           Sample.open_damaged Sample.args_all
           "/data/image_set/training_images/00002_abacus/abacus_02.jpg"
           "UnidentifiedImageError").
  - left. simpl. tauto.
  - reflexivity.
Defined.

(** X3 on the sample tree: five training files and one test file. *)
Lemma load_images_loads_every_jpg_witness :
  exists X_train X_val X_test,
    load_images Sample.os_walk Sample.open_any Sample.keep Sample.args_all
    = Ok (X_train, X_val, X_test) /\
    List.length X_val + List.length X_train = 5 /\
    List.length X_test = 1.
Proof.
  destruct (@load_images_loads_every_jpg _ _ Sample.os_walk Sample.keep
              Sample.open_any Sample.args_all (fun p => p))
    as (X_train & X_val & X_test & E & Ht & _ & _ & _ & L).
  - intros p _. reflexivity.
  - exists X_train, X_val, X_test. split; [exact E|]. split; [exact L|].
    rewrite Ht. reflexivity.
Defined.



(** X7 on the sample archives. *)
Lemma load_eeg_data_shapes_witness :
  exists y_train y_val y_test,
    load_eeg_data Sample.Qzero QArith_base.Qplus Sample.Qdiv_count
      (fun x => x) Sample.np_load Sample.args_all
    = Ok (y_train, y_val, y_test,
          ch_names Sample.training_archive, times Sample.training_archive) /\
    shape3 y_train = (10, 2, 3) /\ shape3 y_val = (2, 2, 3) /\
    shape3 y_test = (3, 2, 3).
Proof.
  destruct (@load_eeg_data_shapes _ _ Sample.Qzero QArith_base.Qplus
              Sample.Qdiv_count (fun x => x) Sample.np_load Sample.args_all
              Sample.training_archive Sample.test_archive eq_refl eq_refl
              sample_training_archive_wf sample_test_archive_wf)
    as (y_train & y_val & y_test & E & _ & _ & _ & S1 & S2 & S3).
  exists y_train, y_val, y_test. split; [exact E|].
  split; [exact S1|]. split; [exact S2|exact S3].
Defined.

(** X8 with both hooks, at index -1 over 2 images and 3 targets: the last
    image comes back with the last target. *)
Lemma getitem_returns_hooked_pair_witness :
  exists ds,
    EegDataset_init 0 Sample.X_train Sample.X_val (Sample.responses 0 3) "all"
      (Some Sample.flip) (Some Sample.negate) = Ok ds /\
    EegDataset_getitem ds (-1)
    = Ok ("train_1_flipped", [-200; -201; -202; -210; -211; -212]%Z).
Proof.
  eexists.
  assert (E : EegDataset_init 0 Sample.X_train Sample.X_val (Sample.responses 0 3)
                "all" (Some Sample.flip) (Some Sample.negate) = Ok _) by reflexivity.
  split; [exact E|].
  destruct (@getitem_returns_hooked_pair _ _ _ _ _ _ _ _ _ _ E (-1)%Z)
    as (t & img & target & Hy & Hi & Ht & G).
  - now right.
  - unfold valid_index. simpl. lia.
  - unfold valid_index. simpl. lia.
  - rewrite G. inversion Hy; subst t. inversion Hi. inversion Ht. reflexivity.
Defined.

(** X9 at index 3 of a sequence of 3 targets. *)
Lemma getitem_raises_outside_bounds_witness :
  exists ds,
    EegDataset_init 0 Sample.X_train Sample.X_val (Sample.responses 0 3) "all"
      None None = Ok ds /\
    EegDataset_getitem ds 3 = Raise IndexError.
Proof.
  eexists.
  assert (E : EegDataset_init 0 Sample.X_train Sample.X_val (Sample.responses 0 3)
                "all" None None = Ok _) by reflexivity.
  split; [exact E|].
  apply (proj1 (@getitem_raises_outside_bounds _ _ _ _ _ _ _ _ _ _ E 3%Z)).
  - now right.
  - unfold valid_index. simpl. lia.
Defined.

(** X10 with an empty validation partition. *)
Lemma create_dataloader_returns_iff_witness :
  ~ exists dls,
      create_dataloader Sample.args_single 2 Sample.X_train Sample.X_val Sample.X_test
        (Sample.responses 1 9) (Sample.responses 0 0) (Sample.responses 0 5)
      = Ok dls.
Proof.
  intros H.
  apply (@create_dataloader_returns_iff _ _ Sample.args_single 2
           Sample.X_train Sample.X_val Sample.X_test
           (Sample.responses 1 9) (Sample.responses 0 0) (Sample.responses 0 5)
           (sample_responses_wf 1 9) (sample_responses_wf 0 0)
           (sample_responses_wf 0 5)) in H.
  destruct H as [_ [_ [H _]]]. now apply H.
Defined.

(** X11 on nine training positions in batches of four. *)
Lemma training_batches_are_slices_witness :
  exists train_dl val_dl test_dl,
    create_dataloader Sample.args_single 2 Sample.X_train Sample.X_val Sample.X_test
      (Sample.responses 1 9) (Sample.responses 0 3) (Sample.responses 0 5)
    = Ok (train_dl, val_dl, test_dl) /\
    batch_indices train_dl [8; 0; 3; 5; 1; 2; 7; 4; 6]
    = Ok [[8; 0; 3; 5]; [1; 2; 7; 4]; [6]].
Proof.
  do 3 eexists.
  assert (Hc : create_dataloader Sample.args_single 2
                 Sample.X_train Sample.X_val Sample.X_test
                 (Sample.responses 1 9) (Sample.responses 0 3) (Sample.responses 0 5)
               = Ok (_, _, _)) by reflexivity.
  split; [exact Hc|].
  destruct (@training_batches_are_slices _ _ _ _ _ _ _ _ _ _ _ _ _ Hc
              [8; 0; 3; 5; 1; 2; 7; 4; 6]) as [E _].
  rewrite E. reflexivity.
Defined.

(** X12 with two training images: the three validation targets cannot be
    fetched, and neither can the five test targets. *)
Lemma evaluation_pass_reads_training_images_witness :
  exists train_dl val_dl test_dl,
    create_dataloader Sample.args_single 2 Sample.X_train Sample.X_val Sample.X_test
      (Sample.responses 1 9) (Sample.responses 0 3) (Sample.responses 0 5)
    = Ok (train_dl, val_dl, test_dl) /\
    iterate val_dl [] = Ok [Raise IndexError] /\
    iterate test_dl [] = Ok [Raise IndexError].
Proof.
  do 3 eexists.
  assert (Hc : create_dataloader Sample.args_single 2
                 Sample.X_train Sample.X_val Sample.X_test
                 (Sample.responses 1 9) (Sample.responses 0 3) (Sample.responses 0 5)
               = Ok (_, _, _)) by reflexivity.
  split; [exact Hc|].
  destruct (@evaluation_pass_reads_training_images _ _ _ _ _ _ _ _ _ _ _ _ _ Hc)
    as [[t [_ [_ Hv]]] [t' [_ [_ Ht]]]].
  split.
  - apply (proj2 (Hv [])). simpl. lia.
  - apply (proj2 (Ht [])). simpl. lia.
Defined.

(** X13 on the batch [1; 0] of the sample training loader. *)
Lemma training_batch_pairs_by_position_witness :
  exists train_dl val_dl test_dl,
    create_dataloader Sample.args_single 2 Sample.X_train Sample.X_val Sample.X_test
      (Sample.responses 1 9) (Sample.responses 0 3) (Sample.responses 0 5)
    = Ok (train_dl, val_dl, test_dl) /\
    (exists imgs targets,
        fetch (dl_dataset train_dl) [1; 0] = Ok (imgs, targets) /\
        Forall2 (fun i img => nth_error Sample.X_train i = Some img) [1; 0] imgs) /\
    fetch (dl_dataset train_dl) [1; 2] = Raise IndexError.
Proof.
  do 3 eexists.
  assert (Hc : create_dataloader Sample.args_single 2
                 Sample.X_train Sample.X_val Sample.X_test
                 (Sample.responses 1 9) (Sample.responses 0 3) (Sample.responses 0 5)
               = Ok (_, _, _)) by reflexivity.
  split; [exact Hc|].
  destruct (@training_batch_pairs_by_position _ _ _ _ _ _ _ _ _ _ _ _ _ Hc)
    as [t [_ [_ H]]].
  split.
  - destruct (proj1 (H [1; 0])) as [imgs [targets [E [F _]]]].
    + intros i [<-|[<-|[]]]; simpl; lia.
    + exists imgs, targets. split; [exact E|exact F].
  - apply (proj2 (H [1; 2]) 2); simpl; auto.
Defined.

(** X14 on stimulus 1 of the sample tensor, at time 2. *)
Lemma all_target_is_channel_major_witness :
  exists ds_all ds_single target_all target_single,
    EegDataset_init 2 Sample.X_train Sample.X_train (Sample.responses 0 12)
      "all" None None = Ok ds_all /\
    EegDataset_init 2 Sample.X_train Sample.X_train (Sample.responses 0 12)
      "single" None None = Ok ds_single /\
    EegDataset_getitem ds_all 1 = Ok ("train_1", target_all) /\
    EegDataset_getitem ds_single 1 = Ok ("train_1", target_single) /\
    nth_error target_single 1 = nth_error target_all (1 * 3 + 2).
Proof.
  destruct (@all_target_is_channel_major _ _ Sample.X_train Sample.X_train
              (Sample.responses 0 12) 1 (Sample.response 1) 2
              (sample_responses_wf 0 12) eq_refl)
    as (ds_all & flat & ds_single & slice & target_all & target_single
        & E1 & Y1 & R1 & E2 & Y2 & R2 & H).
  - simpl. lia.
  - exists ds_all, ds_single, target_all, target_single.
    split; [exact E1|]. split; [exact E2|].
    cbv in E1. inversion E1; subst ds_all. cbv in E2. inversion E2; subst ds_single.
    cbv in Y1. inversion Y1; subst flat. cbv in Y2. inversion Y2; subst slice.
    cbv in R1. inversion R1; subst target_all.
    cbv in R2. inversion R2; subst target_single.
    split; [reflexivity|]. split; [reflexivity|].
    apply (H 1). simpl. lia.
Defined.
